(** * ZuNIS: survey/refine importance-sampling integrator and benchmark integrands

    A shallow embedding of
      - zunis_lib/zunis/integration/flat_survey_integrator.py
      - experiments/benchmarks/utils/integrands.py
      - experiments/benchmarks/utils/integrands/gaussian.py

    Numbers.  Python, numpy and torch floats are embedded as real numbers:
    rounding, overflow and underflow are not represented.  The pooling of
    [finalize_integration] divides numpy scalars by a sum of sample counts
    that is zero on an empty selection; its results are in [npfloat], which
    keeps numpy's non-finite outcomes of a division ([nan], [+inf],
    [-inf]).  The process steps divide a Python float by [x.shape[0]],
    which raises on zero.

    Exceptions.  A Python call either returns or raises; fallible functions
    return [result A]. *)

From Stdlib Require Import String.
From Stdlib Require Import Reals Lra Lia ZArith Bool Arith List.
Import ListNotations.

Set Warnings "-abstract-large-number".

Open Scope R_scope.

(** ** Exceptions and the result type *)

(** The exception classes met in the modelled code.  [AssertionError],
    [IndexError], [ZeroDivisionError] and [RuntimeError] are raised by the
    source (assert statements, indexing, float division, torch
    broadcasting).  The last three are the classes named by the
    specification; no function of the source constructs them. *)
Inductive exn : Type :=
| AssertionError
| IndexError
| ZeroDivisionError
| RuntimeError
| ShapeMismatchError
| DegenerateDensityError
| EmptyHistoryError.

Inductive result (A : Type) : Type :=
| Ok (a : A)
| Raise (e : exn).

Arguments Ok {A} a.
Arguments Raise {A} e.

Definition bind {A B : Type} (m : result A) (k : A -> result B) : result B :=
  match m with
  | Ok a => k a
  | Raise e => Raise e
  end.

Notation "x <- m ;; k" := (bind m (fun x => k))
  (at level 61, m at next level, right associativity).

(** [assert c] of Python. *)
Definition assert (c : bool) : result unit :=
  if c then Ok tt else Raise AssertionError.

Definition returns {A : Type} (m : result A) : Prop := exists a, m = Ok a.

Definition raises {A : Type} (m : result A) (e : exn) : Prop := m = Raise e.

(** ** Tensors of rank at most two

    Every tensor the modelled code creates or inspects has rank 0, 1 or 2.
    A rank-2 tensor of shape [(n, c)] is stored row by row together with
    its number of columns, so that the shape of an empty batch is still
    known; each of its rows has [c] entries. *)
Inductive Tensor : Type :=
| Tensor0 (v : R)
| Tensor1 (v : list R)
| Tensor2 (ncols : nat) (rows : list (list R)).

(** [x.shape] *)
Definition shape (x : Tensor) : list nat :=
  match x with
  | Tensor0 _ => []
  | Tensor1 v => [length v]
  | Tensor2 c rows => [length rows; c]
  end.

(** [x.shape[0]]; indexing an empty shape tuple raises [IndexError]. *)
Definition shape0 (x : Tensor) : result nat :=
  match shape x with
  | n :: _ => Ok n
  | [] => Raise IndexError
  end.

(** [xj[:, :-1]]: all columns but the last.  On a tensor with no column the
    slice is empty; a tensor of rank below two has too few dimensions. *)
Definition drop_last_column (xj : Tensor) : result Tensor :=
  match xj with
  | Tensor2 c rows => Ok (Tensor2 (c - 1) (map (@removelast R) rows))
  | _ => Raise IndexError
  end.

(** [xj[:, -1]]: the last column, as a rank-1 tensor. *)
Definition last_column (xj : Tensor) : result Tensor :=
  match xj with
  | Tensor2 c rows =>
      if (c =? 0)%nat then Raise IndexError
      else Ok (Tensor1 (map (fun r => last r 0) rows))
  | _ => Raise IndexError
  end.

(** [x[:, k]] for a Python integer [k]: negative indices count from the
    end, an index outside [-c .. c-1] raises [IndexError]. *)
Definition select_column (x : Tensor) (k : Z) : result Tensor :=
  match x with
  | Tensor2 c rows =>
      let c' := Z.of_nat c in
      if ((- c' <=? k) && (k <? c'))%Z then
        let j := Z.to_nat (if (k <? 0)%Z then k + c' else k)%Z in
        Ok (Tensor1 (map (fun r => nth j r 0) rows))
      else Raise IndexError
  | _ => Raise IndexError
  end.

(** [torch.exp(-t)] on a rank-1 tensor, elementwise. *)
Definition exp_neg (t : Tensor) : Tensor :=
  match t with
  | Tensor0 v => Tensor0 (exp (- v))
  | Tensor1 v => Tensor1 (map (fun a => exp (- a)) v)
  | Tensor2 c rows => Tensor2 c (map (map (fun a => exp (- a))) rows)
  end.

(** All entries of a tensor. *)
Definition entries (t : Tensor) : list R :=
  match t with
  | Tensor0 v => [v]
  | Tensor1 v => v
  | Tensor2 _ rows => concat rows
  end.

(** ** numpy division and square root *)

Inductive npfloat : Type :=
| fin (r : R)
| pinf
| ninf
| nan.

(** [a / b] on numpy scalars: a zero divisor gives [nan] for [0/0] and a
    signed infinity otherwise (a warning, not an exception). *)
Definition np_div (a b : R) : npfloat :=
  if Req_dec_T b 0 then
    if Req_dec_T a 0 then nan
    else if Rlt_dec 0 a then pinf else ninf
  else fin (a / b).

(** [np.sqrt] *)
Definition np_sqrt (x : npfloat) : npfloat :=
  match x with
  | fin r => if Rlt_dec r 0 then nan else fin (sqrt r)
  | pinf => pinf
  | ninf => nan
  | nan => nan
  end.

(** Sum of a list of reals ([Series.sum]). *)
Definition Rsum (l : list R) : R := fold_right Rplus 0 l.

(** Comparisons of floats, as booleans. *)
Definition Rltb (a b : R) : bool := if Rlt_dec a b then true else false.
Definition Rleb (a b : R) : bool := if Rle_dec a b then true else false.

(** ** torch broadcasting for ranks up to two

    Shapes are aligned from the right: a scalar behaves as shape [(1, 1)], a
    vector of length [c] as shape [(1, c)].  Two sizes are compatible when
    they are equal or one of them is 1; otherwise torch raises
    [RuntimeError].  The result has the larger rank of the two operands. *)
Definition rank (x : Tensor) : nat := length (shape x).

Definition as_rows (x : Tensor) : nat * nat * list (list R) :=
  match x with
  | Tensor0 v => (1, 1, [[v]])%nat
  | Tensor1 v => (1, length v, [v])%nat
  | Tensor2 c rows => (length rows, c, rows)
  end.

Definition bcast_dim (a b : nat) : result nat :=
  if (a =? b)%nat then Ok a
  else if (a =? 1)%nat then Ok b
  else if (b =? 1)%nat then Ok a
  else Raise RuntimeError.

(** Stretch a size-1 dimension to size [n]; a dimension that already has
    size [n] is left alone. *)
Definition expand {A : Type} (dflt : A) (n : nat) (l : list A) : list A :=
  if (length l =? n)%nat then l else repeat (hd dflt l) n.

Definition zipWith {A B C : Type} (f : A -> B -> C) (l1 : list A) (l2 : list B)
  : list C :=
  map (fun p => f (fst p) (snd p)) (combine l1 l2).

Definition of_rows (rk c : nat) (rows : list (list R)) : Tensor :=
  match rk with
  | 0%nat => Tensor0 (hd 0 (hd [] rows))
  | 1%nat => Tensor1 (hd [] rows)
  | _ => Tensor2 c rows
  end.

Definition binop (op : R -> R -> R) (a b : Tensor) : result Tensor :=
  let '(n1, c1, r1) := as_rows a in
  let '(n2, c2, r2) := as_rows b in
  n <- bcast_dim n1 n2 ;;
  c <- bcast_dim c1 c2 ;;
  let stretch r := expand [] n (map (expand 0 c) r) in
  Ok (of_rows (Nat.max (rank a) (rank b)) c
        (zipWith (zipWith op) (stretch r1) (stretch r2))).

(** [t.square()] *)
Definition square (t : Tensor) : Tensor :=
  match t with
  | Tensor0 v => Tensor0 (v * v)
  | Tensor1 v => Tensor1 (map (fun a => a * a) v)
  | Tensor2 c rows => Tensor2 c (map (map (fun a => a * a)) rows)
  end.

(** [t.sum(axis=1)]: only a tensor of rank two has an axis 1. *)
Definition sum_axis1 (t : Tensor) : result Tensor :=
  match t with
  | Tensor2 _ rows => Ok (Tensor1 (map Rsum rows))
  | _ => Raise IndexError
  end.

(** [torch.exp(t)] and [-t] *)
Definition tmap (g : R -> R) (t : Tensor) : Tensor :=
  match t with
  | Tensor0 v => Tensor0 (g v)
  | Tensor1 v => Tensor1 (map g v)
  | Tensor2 c rows => Tensor2 c (map (map g) rows)
  end.

Inductive Device : Type :=
| cpu
| cuda (id : nat).

(** ** experiments/benchmarks/utils/integrands.py *)
Module Integrands.

(** [sanitize_variable]: numbers and arrays become tensors, tensors are
    cloned and moved to the device; the value is unchanged. *)
Definition sanitize_variable (x : Tensor) (device : option Device) : Tensor := x.

(** The abstract class [Integrand]: a dimension [d] and the abstract method
    [evaluate_integrand]. *)
Class Integrand (T : Type) : Type := {
  Integrand_d : T -> Z;
  evaluate_integrand : T -> Tensor -> result Tensor
}.

(** [Integrand.__call__] *)
Definition call {T : Type} `{Integrand T} (self : T) (x : Tensor) : result Tensor :=
  _ <- assert (length (shape x) =? 2)%nat ;;
  _ <- assert (Z.of_nat (nth 1 (shape x) 0%nat) =? Integrand_d self)%Z ;;
  evaluate_integrand self x.

(** The abstract class [KnownIntegrand] adds the true value of the integral. *)
Class KnownIntegrand (T : Type) `{Integrand T} : Type := {
  integral : T -> R
}.

(** [KnownIntegrand.compare_absolute] *)
Definition compare_absolute {T : Type} `{KnownIntegrand T} (self : T)
  (estimated_integral : R) : R :=
  Rabs (integral self - estimated_integral).

(** The abstract class [VolumeIntegrand]: the characteristic inequality,
    returning a boolean tensor of rank one. *)
Class VolumeIntegrand (T : Type) : Type := {
  VolumeIntegrand_d : T -> Z;
  inequality : T -> Tensor -> result (list bool)
}.

(** [inequality(x).to(x.dtype)] *)
Definition to_dtype (b : list bool) : Tensor :=
  Tensor1 (map (fun c : bool => if c then 1 else 0) b).

(** [VolumeIntegrand.evaluate_integrand] *)
#[global] Instance VolumeIntegrand_Integrand (T : Type) `{VolumeIntegrand T}
  : Integrand T := {
  Integrand_d := VolumeIntegrand_d;
  evaluate_integrand := fun self x => b <- inequality self x ;; Ok (to_dtype b)
}.

(** *** HyperrectangleVolumeIntegrand *)
Record HyperrectangleVolumeIntegrand : Type := {
  hr_d : Z;
  split_dim : Z;
  frac : R
}.

(** [HyperrectangleVolumeIntegrand.__init__(d, split_dim=0, frac=0.5)] *)
Definition HyperrectangleVolumeIntegrand_init (d : Z) (split_dim : option Z)
  (frac : option R) : result HyperrectangleVolumeIntegrand :=
  let split_dim := match split_dim with Some k => k | None => 0%Z end in
  let frac := match frac with Some v => v | None => 5 / 10 end in
  _ <- assert ((0 <=? split_dim) && (split_dim <? d))%Z ;;
  _ <- assert (Rleb 0 frac && Rleb frac 1) ;;
  Ok {| hr_d := d; split_dim := split_dim; frac := frac |}.

(** [x[:, self.split_dim] < self.frac] *)
Definition hr_inequality (self : HyperrectangleVolumeIntegrand) (x : Tensor)
  : result (list bool) :=
  col <- select_column x (split_dim self) ;;
  Ok (map (fun a => Rltb a (frac self)) (entries col)).

#[global] Instance HyperrectangleVolumeIntegrand_Volume
  : VolumeIntegrand HyperrectangleVolumeIntegrand := {
  VolumeIntegrand_d := hr_d;
  inequality := hr_inequality
}.

(** [HyperrectangleVolumeIntegrand.integral] *)
#[global] Instance HyperrectangleVolumeIntegrand_Known
  : KnownIntegrand HyperrectangleVolumeIntegrand := {
  integral := frac
}.

(** *** DiagonalGaussianIntegrand *)
Record DiagonalGaussianIntegrand : Type := {
  dg_d : Z;
  mu : Tensor;
  s : Tensor;
  norm : Tensor;
  default_device : option Device
}.

(** [len(t.shape) == 0 or tuple(t.shape) == (d,)] *)
Definition scalar_or_d_vector (t : Tensor) (d : Z) : bool :=
  match shape t with
  | [] => true
  | [n] => (Z.of_nat n =? d)%Z
  | _ => false
  end.

(** [DiagonalGaussianIntegrand.__init__(d, mu=0.5, s=0.1, norm=1., device=None)] *)
Definition DiagonalGaussianIntegrand_init (d : Z) (mu s norm : option Tensor)
  (device : option Device) : result DiagonalGaussianIntegrand :=
  let mu := match mu with Some t => t | None => Tensor0 (5 / 10) end in
  let s := match s with Some t => t | None => Tensor0 (1 / 10) end in
  let norm := match norm with Some t => t | None => Tensor0 1 end in
  let mu := sanitize_variable mu device in
  let s := sanitize_variable s device in
  let norm := sanitize_variable norm device in
  _ <- assert (scalar_or_d_vector mu d) ;;
  _ <- assert (scalar_or_d_vector s d) ;;
  _ <- assert (length (shape norm) =? 0)%nat ;;
  Ok {| dg_d := d; mu := mu; s := s; norm := norm; default_device := device |}.

(** [self.norm * torch.exp(-((x - mu) / s).square().sum(axis=1))] *)
Definition dg_evaluate_integrand (self : DiagonalGaussianIntegrand) (x : Tensor)
  : result Tensor :=
  diff <- binop Rminus x (mu self) ;;
  quot <- binop Rdiv diff (s self) ;;
  tot <- sum_axis1 (square quot) ;;
  binop Rmult (norm self) (tmap exp (tmap Ropp tot)).

#[global] Instance DiagonalGaussianIntegrand_Integrand
  : Integrand DiagonalGaussianIntegrand := {
  Integrand_d := dg_d;
  evaluate_integrand := dg_evaluate_integrand
}.

End Integrands.

(** ** experiments/benchmarks/utils/integrands/gaussian.py *)
Module Gaussian.

Record DiagonalGaussianIntegrand : Type := {
  dg_d : Z;
  mu : Tensor;
  s : Tensor;
  norm : Tensor;
  default_device : option Device
}.

(** [DiagonalGaussianIntegrand.__init__(d, mu=0.5, s=0.1, norm=1., device=None)] *)
Definition DiagonalGaussianIntegrand_init (d : Z) (mu s norm : option Tensor)
  (device : option Device) : result DiagonalGaussianIntegrand :=
  let mu := match mu with Some t => t | None => Tensor0 (5 / 10) end in
  let s := match s with Some t => t | None => Tensor0 (1 / 10) end in
  let norm := match norm with Some t => t | None => Tensor0 1 end in
  let mu := Integrands.sanitize_variable mu device in
  let s := Integrands.sanitize_variable s device in
  let norm := Integrands.sanitize_variable norm device in
  _ <- assert (Integrands.scalar_or_d_vector mu d) ;;
  _ <- assert (Integrands.scalar_or_d_vector s d) ;;
  _ <- assert (length (shape norm) =? 0)%nat ;;
  Ok {| dg_d := d; mu := mu; s := s; norm := norm; default_device := device |}.

(** [self.norm * torch.exp(-((x - mu) / s).square().sum(axis=1))] *)
Definition evaluate_integrand (self : DiagonalGaussianIntegrand) (x : Tensor)
  : result Tensor :=
  centred <- binop Rminus x (mu self) ;;
  scaled <- binop Rdiv centred (s self) ;;
  total <- sum_axis1 (square scaled) ;;
  binop Rmult (norm self) (tmap exp (tmap Ropp total)).

End Gaussian.

(** ** zunis_lib/zunis/integration/flat_survey_integrator.py *)

(** A callable integrand [f]: a batch of points to its values. *)
Definition integrand : Type := Tensor -> result Tensor.

(** A sample batch [(x, px, fx)]. *)
Definition Batch : Type := (Tensor * Tensor * Tensor)%type.

(** Python float division [a / n] by an integer: a zero divisor raises. *)
Definition float_div (a : R) (n : nat) : result R :=
  if (n =? 0)%nat then Raise ZeroDivisionError else Ok (a / INR n).

(** [v ** 0.5] for a variance [v]: on the non-negative floats this is the
    square root. *)
Definition pow_half (v : R) : R := sqrt v.

(** The collaborators the module imports and this repository does not
    contain: the trainer ([BasicTrainer] instances, with [sample_forward]
    and [set_verbosity]), the posterior objects, the training records, the
    static method [BasicStatefulTrainer.generate_target_batch_from_posterior]
    and the class [UniformSampler].  Objects are mutable: a call returns
    the object's next state next to its outcome. *)
Class Collaborators : Type := {
  Trainer : Type;
  Posterior : Type;
  TrainingRecord : Type;
  sample_forward : Trainer -> nat -> result Tensor * Trainer;
  set_verbosity : Trainer -> option Z -> Trainer;
  generate_target_batch_from_posterior :
    nat -> integrand -> Posterior -> result Batch * Posterior;
  UniformSampler : Z -> Device -> Posterior
}.

Section FlatSurveyIntegrator.

Context {C : Collaborators}.

(** One row of the [integration_history] data frame. *)
Record HistoryRow : Type := {
  integral : R;
  error : R;
  n_points : nat;
  phase : string;
  training_record : option TrainingRecord
}.

Definition History : Type := list HistoryRow.

(** [empty_history()]: a data frame with the four columns and no row. *)
Definition empty_history : History := [].

(** The attributes of an integrator instance.  [verbosity] is what the base
    class receives; [d] is set by [FlatSurveySamplingIntegrator] only. *)
Record Integrator : Type := {
  f : integrand;
  model_trainer : Trainer;
  posterior : Posterior;
  n_iter_survey : nat;
  n_iter_refine : nat;
  n_points_survey : nat;
  n_points_refine : nat;
  use_survey : bool;
  integration_history : History;
  verbosity : option Z;
  d : option Z
}.

Definition set_integration_history (self : Integrator) (h : History) : Integrator :=
  {| f := f self; model_trainer := model_trainer self; posterior := posterior self;
     n_iter_survey := n_iter_survey self; n_iter_refine := n_iter_refine self;
     n_points_survey := n_points_survey self; n_points_refine := n_points_refine self;
     use_survey := use_survey self; integration_history := h;
     verbosity := verbosity self; d := d self |}.

Definition set_model_trainer (self : Integrator) (t : Trainer) : Integrator :=
  {| f := f self; model_trainer := t; posterior := posterior self;
     n_iter_survey := n_iter_survey self; n_iter_refine := n_iter_refine self;
     n_points_survey := n_points_survey self; n_points_refine := n_points_refine self;
     use_survey := use_survey self; integration_history := integration_history self;
     verbosity := verbosity self; d := d self |}.

Definition set_posterior (self : Integrator) (p : Posterior) : Integrator :=
  {| f := f self; model_trainer := model_trainer self; posterior := p;
     n_iter_survey := n_iter_survey self; n_iter_refine := n_iter_refine self;
     n_points_survey := n_points_survey self; n_points_refine := n_points_refine self;
     use_survey := use_survey self; integration_history := integration_history self;
     verbosity := verbosity self; d := d self |}.


(** Two instances with the same iteration counts, attributes that no hook
    rebinds. *)
Definition same_counts (a b : Integrator) : Prop :=
  n_iter_survey a = n_iter_survey b /\ n_iter_refine a = n_iter_refine b.



(** The keyword arguments of the constructors; [None] is an omitted
    argument (or, for the four phase-specific counts, Python's [None]). *)
Record Kwargs : Type := {
  kw_n_iter : option nat;
  kw_n_iter_survey : option nat;
  kw_n_iter_refine : option nat;
  kw_n_points : option nat;
  kw_n_points_survey : option nat;
  kw_n_points_refine : option nat;
  kw_use_survey : option bool;
  kw_verbosity : option (option Z);
  kw_trainer_verbosity : option (option Z)
}.

Definition default {A : Type} (o : option A) (dflt : A) : A :=
  match o with Some a => a | None => dflt end.

(** [PosteriorSurveySamplingIntegrator.__init__].  The [isinstance]
    assertion holds by typing: [Trainer] is the type of [BasicTrainer]
    instances. *)
Definition PosteriorSurveySamplingIntegrator_init (f : integrand) (trainer : Trainer)
  (posterior : Posterior) (kw : Kwargs) : Integrator :=
  let n_iter := default (kw_n_iter kw) 10%nat in
  let n_points := default (kw_n_points kw) 100000%nat in
  {| f := f;
     model_trainer := set_verbosity trainer (default (kw_trainer_verbosity kw) None);
     posterior := posterior;
     n_iter_survey := default (kw_n_iter_survey kw) n_iter;
     n_iter_refine := default (kw_n_iter_refine kw) n_iter;
     n_points_survey := default (kw_n_points_survey kw) n_points;
     n_points_refine := default (kw_n_points_refine kw) n_points;
     use_survey := default (kw_use_survey kw) false;
     integration_history := empty_history;
     verbosity := default (kw_verbosity kw) None;
     d := None |}.

(** [initialize] *)
Definition initialize (self : Integrator) : Integrator :=
  set_integration_history self empty_history.

(** [initialize_survey], [initialize_refine], [finalize_survey],
    [finalize_refine]: [pass]. *)
Definition initialize_survey (self : Integrator) : Integrator := self.
Definition initialize_refine (self : Integrator) : Integrator := self.
Definition finalize_survey (self : Integrator) : Integrator := self.
Definition finalize_refine (self : Integrator) : Integrator := self.

(** [sample_survey(n_points=None, f=None)] *)
Definition sample_survey (self : Integrator) (n_points : option nat)
  (f' : option integrand) : result Batch * Integrator :=
  let n_points := default n_points (n_points_survey self) in
  let f' := default f' (f self) in
  let '(out, post) := generate_target_batch_from_posterior n_points f' (posterior self) in
  (out, set_posterior self post).

(** [sample_refine(n_points=None, f=None)] *)
Definition sample_refine (self : Integrator) (n_points : option nat)
  (f' : option integrand) : result Batch * Integrator :=
  let n_points := default n_points (n_points_refine self) in
  let f' := default f' (f self) in
  let '(out, trainer) := sample_forward (model_trainer self) n_points in
  (xj <- out ;;
   x <- drop_last_column xj ;;
   logq <- last_column xj ;;
   let px := exp_neg logq in
   fx <- f' x ;;
   Ok (x, px, fx),
   set_model_trainer self trainer).

(** [process_survey_step(sample, integral, integral_var, training_record)] *)
Definition process_survey_step (self : Integrator) (sample : Batch)
  (integral integral_var : R) (training_record : TrainingRecord) : result Integrator :=
  let '(x, px, fx) := sample in
  n_points <- shape0 x ;;
  q <- float_div integral_var n_points ;;
  Ok (set_integration_history self
        (integration_history self ++
           [{| integral := integral; error := pow_half q; n_points := n_points;
               phase := "survey"; training_record := Some training_record |}])).

(** [process_refine_step(sample, integral, integral_var)] *)
Definition process_refine_step (self : Integrator) (sample : Batch)
  (integral integral_var : R) : result Integrator :=
  let '(x, px, fx) := sample in
  n_points <- shape0 x ;;
  q <- float_div integral_var n_points ;;
  Ok (set_integration_history self
        (integration_history self ++
           [{| integral := integral; error := pow_half q; n_points := n_points;
               phase := "refine"; training_record := None |}])).

(** [history.loc[history["phase"] == "refine"]] *)
Definition refine_rows (h : History) : History :=
  filter (fun r => String.eqb (phase r) "refine") h.

(** [data["n_points"].sum()]: an integer sum. *)
Definition n_points_sum (data : History) : nat :=
  fold_right Nat.add 0%nat (map n_points data).

(** [finalize_integration(use_survey=None)] *)
Definition finalize_integration (self : Integrator) (use_survey' : option bool)
  : result (npfloat * npfloat * History) :=
  let use_survey' := default use_survey' (use_survey self) in
  let data := if use_survey' then integration_history self
              else refine_rows (integration_history self) in
  let result := Rsum (map (fun r => integral r * INR (n_points r)) data) in
  let result := np_div result (INR (n_points_sum data)) in
  let error :=
    np_sqrt (np_div (Rsum (map (fun r => (error r * INR (n_points r)) ^ 2) data))
                    (INR (n_points_sum data ^ 2))) in
  Ok (result, error, integration_history self).


(** *** The driver of the base class

    [SurveyRefineIntegratorAPI] (integratorAPI.py) is not among the sources.
    Its driver is stateful and fallible: [M A] threads the integrator
    instance and stops at the first exception. *)
Definition M (A : Type) : Type := Integrator -> result A * Integrator.

Definition ret {A : Type} (a : A) : M A := fun self => (Ok a, self).

Definition bindM {A B : Type} (m : M A) (k : A -> M B) : M B :=
  fun self =>
    match m self with
    | (Ok a, self') => k a self'
    | (Raise e, self') => (Raise e, self')
    end.

Definition lift {A : Type} (m : result A) : M A := fun self => (m, self).

(** A method that rebinds attributes of [self], or raises and leaves
    [self] as it was. *)
Definition update (m : Integrator -> result Integrator) : M unit :=
  fun self =>
    match m self with
    | Ok self' => (Ok tt, self')
    | Raise e => (Raise e, self)
    end.

Definition modify (g : Integrator -> Integrator) : M unit :=
  fun self => (Ok tt, g self).

Fixpoint repeatM (n : nat) (body : M unit) : M unit :=
  match n with
  | O => ret tt
  | S k => bindM body (fun _ => repeatM k body)
  end.

(** What the driver needs besides the hooks: the per-iteration estimator
    and the trainer's fit step, which yields the training record. *)
Class EstimatorAPI : Type := {
  estimate : Batch -> result (R * R);
  fit : Trainer -> Batch -> result TrainingRecord * Trainer
}.

Context {E : EstimatorAPI}.

Definition fit_step (sample : Batch) : M TrainingRecord :=
  fun self =>
    let '(out, trainer) := fit (model_trainer self) sample in
    (out, set_model_trainer self trainer).

(** Modelled from the spec: one survey iteration of
    [SurveyRefineIntegratorAPI] (absent from the sources): "obtain a sample
    batch via sample_survey(...), compute (integral, variance) for that
    batch, call process_survey_step(sample, integral, variance,
    training_record)"; the batch is "consumed immediately by the estimator
    and by the Trainer's fit step". *)
Definition survey_iteration (n_points : option nat) : M unit :=
  bindM (fun self => sample_survey self n_points None) (fun sample =>
  bindM (lift (estimate sample)) (fun iv =>
  bindM (fit_step sample) (fun record =>
  update (fun self => process_survey_step self sample (fst iv) (snd iv) record)))).

(** Modelled from the spec: one refine iteration of
    [SurveyRefineIntegratorAPI] (absent from the sources), "analogous to
    step 2 using sample_refine(...) and process_refine_step(...)". *)
Definition refine_iteration (n_points : option nat) : M unit :=
  bindM (fun self => sample_refine self n_points None) (fun sample =>
  bindM (lift (estimate sample)) (fun iv =>
  update (fun self => process_refine_step self sample (fst iv) (snd iv)))).

(** Modelled from the spec: [SurveyRefineIntegratorAPI.integrate] (absent
    from the sources), the fixed protocol of section 4.1: initialize,
    initialize_survey, the survey loop, finalize_survey, initialize_refine,
    the refine loop, finalize_refine, finalize_integration(use_survey). *)
Definition integrate (n_iter_survey' n_iter_refine' : option nat)
  (n_points_survey' n_points_refine' : option nat) (use_survey' : option bool)
  : M (npfloat * npfloat * History) :=
  bindM (modify initialize) (fun _ =>
  bindM (modify initialize_survey) (fun _ =>
  bindM (fun self => repeatM (default n_iter_survey' (n_iter_survey self))
                       (survey_iteration n_points_survey') self) (fun _ =>
  bindM (modify finalize_survey) (fun _ =>
  bindM (modify initialize_refine) (fun _ =>
  bindM (fun self => repeatM (default n_iter_refine' (n_iter_refine self))
                       (refine_iteration n_points_refine') self) (fun _ =>
  bindM (modify finalize_refine) (fun _ =>
  fun self => (finalize_integration self use_survey', self)))))))).

End FlatSurveyIntegrator.

(** ** The collaborators as the specification describes them *)
Module SpecModel.

(** Modelled from the spec: the Posterior capability (the module
    zunis.models.flows.sampling is absent from the sources): a "sampling
    capability with explicit density reporting".  A posterior object is
    given by its random source, the points it yields at its [k]-th call for
    a batch of [n], by the density it reports at a point, by the dimension
    of its points and by the number of calls made so far. *)
Record DensityPosterior : Type := {
  points : nat -> nat -> list (list R);
  density : list R -> R;
  dimension : nat;
  calls : nat
}.

(** Modelled from the spec: [UniformSampler(d, device)] (absent from the
    sources), "a fixed uniform distribution over the hypercube (density
    identically 1 everywhere)"; [source] is the backend's uniform random
    draw. *)
Definition uniform_sampler (source : nat -> nat -> list (list R)) (d : Z)
  (device : Device) : DensityPosterior :=
  {| points := source; density := fun _ => 1; dimension := Z.to_nat d; calls := 0 |}.

(** Modelled from the spec:
    [BasicStatefulTrainer.generate_target_batch_from_posterior(n_points, f,
    posterior)] (absent from the sources) yields the batch [(x, p(x), f(x))]
    of [n_points] points sampled from the posterior. *)
Definition target_batch (n_points : nat) (f : integrand)
  (post : DensityPosterior) : result Batch * DensityPosterior :=
  let pts := points post (calls post) n_points in
  let x := Tensor2 (dimension post) pts in
  let px := Tensor1 (map (density post) pts) in
  (fx <- f x ;; Ok (x, px, fx),
   {| points := points post; density := density post;
      dimension := dimension post; calls := S (calls post) |}).

(** The collaborators of the integrator with this posterior, for any
    trainer. *)
Definition collaborators (T TR : Type)
  (sample_forward : T -> nat -> result Tensor * T)
  (set_verbosity : T -> option Z -> T)
  (source : nat -> nat -> list (list R)) : Collaborators :=
  {| Trainer := T; Posterior := DensityPosterior; TrainingRecord := TR;
     sample_forward := sample_forward; set_verbosity := set_verbosity;
     generate_target_batch_from_posterior := target_batch;
     UniformSampler := uniform_sampler source |}.

End SpecModel.

(** ** Closed-form statements of the specification *)

(** The pooled value of section 4.2 over the selected records:
    [Sum(integral_i * n_i) / Sum(n_i)]. *)
Definition pooled_value {C : Collaborators} (data : History) : npfloat :=
  np_div (Rsum (map (fun r => integral r * INR (n_points r)) data))
         (Rsum (map (fun r => INR (n_points r)) data)).

(** The pooled error of section 4.2 over the selected records:
    [sqrt(Sum((error_i * n_i)^2)) / Sum(n_i)]. *)
Definition pooled_error {C : Collaborators} (data : History) : npfloat :=
  np_div (sqrt (Rsum (map (fun r => (error r * INR (n_points r)) ^ 2) data)))
         (Rsum (map (fun r => INR (n_points r)) data)).

(** The records the pooled estimate is taken over: all of them when
    [use_survey] holds, the refine-phase ones otherwise. *)
Definition selected_records {C : Collaborators} (use_survey : bool) (h : History)
  : History :=
  if use_survey then h else filter (fun r => String.eqb (phase r) "refine") h.

(** The [j]-th component of a gaussian parameter: a scalar stands for the
    vector with equal components. *)
Definition param_at (p : Tensor) (j : nat) : R :=
  match p with
  | Tensor0 v => v
  | Tensor1 v => nth j v 0
  | Tensor2 _ _ => 0
  end.

(** [norm * exp(- sum_j ((x_j - mu_j) / s_j)^2)] at one point [x] of
    dimension [d]. *)
Definition gaussian_formula (d : nat) (mu s : Tensor) (norm : R) (x : list R) : R :=
  norm * exp (- Rsum (map (fun j => ((nth j x 0 - param_at mu j) / param_at s j) ^ 2)
                          (seq 0 d))).

(** The characteristic function of the hyperrectangle, with the strict
    inequality: 1 when the [k]-th coordinate of the point is below [frac],
    0 otherwise. *)
Definition below (k : nat) (frac : R) (x : list R) : R :=
  if Rlt_dec (nth k x 0) frac then 1 else 0.

(** ** Concrete instances *)
Module Example.

(** A trainer whose state counts the calls made to [sample_forward]; each
    point is [(1/2, 1/4)] with log-density 0. *)
Definition sample_forward (t n : nat) : result Tensor * nat :=
  (Ok (Tensor2 3 (repeat [1 / 2; 1 / 4; 0] n)), S t).

Definition source (k n : nat) : list (list R) := repeat [1 / 2; 1 / 4] n.

#[export] Instance collaborators : Collaborators :=
  SpecModel.collaborators nat unit sample_forward (fun t _ => t) source.

(** A posterior that reports a zero density at every point. *)
Definition zero_density_posterior : SpecModel.DensityPosterior :=
  {| SpecModel.points := source; SpecModel.density := fun _ => 0;
     SpecModel.dimension := 2; SpecModel.calls := 0 |}.

(** The constant integrand 1 on two-dimensional points. *)
Definition one : integrand :=
  fun x =>
    match x with
    | Tensor2 _ rows => Ok (Tensor1 (map (fun _ => 1) rows))
    | _ => Raise IndexError
    end.

Definition kwargs0 : Kwargs :=
  {| kw_n_iter := None; kw_n_iter_survey := None; kw_n_iter_refine := None;
     kw_n_points := None; kw_n_points_survey := None; kw_n_points_refine := None;
     kw_use_survey := None; kw_verbosity := None; kw_trainer_verbosity := None |}.


Definition integrator0 : Integrator :=
  PosteriorSurveySamplingIntegrator_init one 0%nat zero_density_posterior kwargs0.

Definition row (i e : R) (n : nat) (ph : string) : HistoryRow :=
  {| integral := i; error := e; n_points := n; phase := ph; training_record := None |}.

(** A batch of one point whose density is zero. *)
Definition zero_density_batch : Batch :=
  (Tensor2 2 [[1 / 2; 1 / 4]], Tensor1 [0], Tensor1 [1]).

(** A batch of two points that comes with three densities and one value. *)
Definition ragged_batch : Batch :=
  (Tensor2 2 [[1 / 2; 1 / 4]; [1 / 4; 1 / 2]], Tensor1 [1; 1; 1], Tensor1 [1]).

(** The lower half of the unit square along the first axis. *)
Definition half_square : Integrands.HyperrectangleVolumeIntegrand :=
  {| Integrands.hr_d := 2; Integrands.split_dim := 0; Integrands.frac := 1 / 2 |}.

(** An estimator and a fit step for the driver: the estimate (1, 0) for
    every batch, and a fit that leaves the trainer as it is. *)
#[export] Instance estimator : EstimatorAPI :=
  {| estimate := fun _ => Ok (1, 0); fit := fun t _ => (Ok tt, t) |}.

End Example.

(** ** More of experiments/benchmarks/utils/integrands.py *)
Module KnownIntegrands.

(** [KnownIntegrand.compare_relative]: the absolute difference over the
    mean of the absolute values, a division of Python floats, which raises
    on a zero divisor. *)
Definition compare_relative {T : Type} `{Integrands.KnownIntegrand T} (self : T)
  (estimated_integral : R) : result R :=
  let den := 5 / 10 * (Rabs (Integrands.integral self) + Rabs estimated_integral) in
  if Req_dec_T den 0 then Raise ZeroDivisionError
  else Ok (Integrands.compare_absolute self estimated_integral / den).

(** The outcomes of [check]: a boolean, an exception of the comparison, or
    the [ValueError] of an unknown method. *)
Inductive check_outcome : Type :=
| Checked (b : bool)
| CheckRaised (e : exn)
| ValueError.

(** [KnownIntegrand.check(estimated_integral, tolerance=1.e-3,
    method="relative")] *)
Definition check {T : Type} `{Integrands.KnownIntegrand T} (self : T)
  (estimated_integral : R) (tolerance : option R) (method : option string)
  : check_outcome :=
  let tolerance := default tolerance (1 / 1000) in
  let method := default method "relative"%string in
  if String.eqb method "relative" then
    match compare_relative self estimated_integral with
    | Ok v => Checked (Rleb v tolerance)
    | Raise e => CheckRaised e
    end
  else if String.eqb method "absolute" then
    Checked (Rleb (Integrands.compare_absolute self estimated_integral) tolerance)
  else ValueError.

End KnownIntegrands.

Module Hypersphere.

Record HypersphereVolumeIntegrand : Type := {
  hs_d : Z;
  r : R;
  c : Tensor
}.

(** [(t > 0.).all().item()] and [(t < 1.).all().item()] *)
Definition all_above (t : Tensor) (bound : R) : bool :=
  forallb (fun a => Rltb bound a) (entries t).

Definition all_below (t : Tensor) (bound : R) : bool :=
  forallb (fun a => Rltb a bound) (entries t).

(** [HypersphereVolumeIntegrand.__init__(d, r, c, device=None)] *)
Definition HypersphereVolumeIntegrand_init (d : Z) (r : R) (c : Tensor)
  (device : option Device) : result HypersphereVolumeIntegrand :=
  let c := Integrands.sanitize_variable c device in
  _ <- assert (Rltb 0 r) ;;
  _ <- assert (Integrands.scalar_or_d_vector c d) ;;
  _ <- assert (all_above (tmap (fun a => a - r) c) 0
               && all_below (tmap (fun a => a + r) c) 1) ;;
  Ok {| hs_d := d; r := r; c := c |}.

(** [((x - self.c) ** 2).sum(dim=1).sqrt() <= self.r] *)
Definition hs_inequality (self : HypersphereVolumeIntegrand) (x : Tensor)
  : result (list bool) :=
  diff <- binop Rminus x (c self) ;;
  tot <- sum_axis1 (square diff) ;;
  Ok (map (fun a => Rleb a (r self)) (entries (tmap sqrt tot))).

#[global] Instance HypersphereVolumeIntegrand_Volume
  : Integrands.VolumeIntegrand HypersphereVolumeIntegrand := {
  Integrands.VolumeIntegrand_d := hs_d;
  Integrands.inequality := hs_inequality
}.

End Hypersphere.

Module IntegrandsCamel.

(** [CamelIntegrand] of integrands.py *)
Record CamelIntegrand : Type := {
  cm_d : Z;
  s1 : Tensor;
  norm1 : Tensor;
  s2 : Tensor;
  norm2 : Tensor;
  default_device : option Device;
  hump1 : Integrands.DiagonalGaussianIntegrand;
  hump2 : Integrands.DiagonalGaussianIntegrand
}.

(** [CamelIntegrand.__init__(d, s1=0.1, norm1=1, s2=0.2, norm2=2,
    device=None)] *)
Definition CamelIntegrand_init (d : Z) (s1 norm1 s2 norm2 : option Tensor)
  (device : option Device) : result CamelIntegrand :=
  let s1 := default s1 (Tensor0 (1 / 10)) in
  let norm1 := default norm1 (Tensor0 1) in
  let s2 := default s2 (Tensor0 (2 / 10)) in
  let norm2 := default norm2 (Tensor0 2) in
  hump1 <- Integrands.DiagonalGaussianIntegrand_init d (Some (Tensor0 (25 / 100)))
             (Some s1) (Some norm1) device ;;
  hump2 <- Integrands.DiagonalGaussianIntegrand_init d (Some (Tensor0 (75 / 100)))
             (Some s2) (Some norm2) device ;;
  Ok {| cm_d := d;
        s1 := Integrands.sanitize_variable s1 device;
        norm1 := Integrands.sanitize_variable norm1 device;
        s2 := Integrands.sanitize_variable s2 device;
        norm2 := Integrands.sanitize_variable norm2 device;
        default_device := device; hump1 := hump1; hump2 := hump2 |}.

(** [self.hump1.evaluate_integrand(x) + self.hump2.evaluate_integrand(x)] *)
Definition cm_evaluate_integrand (self : CamelIntegrand) (x : Tensor) : result Tensor :=
  a <- Integrands.dg_evaluate_integrand (hump1 self) x ;;
  b <- Integrands.dg_evaluate_integrand (hump2 self) x ;;
  binop Rplus a b.

#[global] Instance CamelIntegrand_Integrand : Integrands.Integrand CamelIntegrand := {
  Integrands.Integrand_d := cm_d;
  Integrands.evaluate_integrand := cm_evaluate_integrand
}.

End IntegrandsCamel.

(** ** More of experiments/benchmarks/utils/integrands/gaussian.py *)
Module GaussianCamel.

Record CamelIntegrand : Type := {
  cm_d : Z;
  s1 : Tensor;
  norm1 : Tensor;
  s2 : Tensor;
  norm2 : Tensor;
  default_device : option Device;
  hump1 : Gaussian.DiagonalGaussianIntegrand;
  hump2 : Gaussian.DiagonalGaussianIntegrand
}.

(** [CamelIntegrand.__init__(d, s1=0.1, norm1=1, s2=0.1, norm2=1,
    device=None)] *)
Definition CamelIntegrand_init (d : Z) (s1 norm1 s2 norm2 : option Tensor)
  (device : option Device) : result CamelIntegrand :=
  let s1 := default s1 (Tensor0 (1 / 10)) in
  let norm1 := default norm1 (Tensor0 1) in
  let s2 := default s2 (Tensor0 (1 / 10)) in
  let norm2 := default norm2 (Tensor0 1) in
  hump1 <- Gaussian.DiagonalGaussianIntegrand_init d (Some (Tensor0 (25 / 100)))
             (Some s1) (Some norm1) device ;;
  hump2 <- Gaussian.DiagonalGaussianIntegrand_init d (Some (Tensor0 (75 / 100)))
             (Some s2) (Some norm2) device ;;
  Ok {| cm_d := d;
        s1 := Integrands.sanitize_variable s1 device;
        norm1 := Integrands.sanitize_variable norm1 device;
        s2 := Integrands.sanitize_variable s2 device;
        norm2 := Integrands.sanitize_variable norm2 device;
        default_device := device; hump1 := hump1; hump2 := hump2 |}.

(** [self.hump1.evaluate_integrand(x) + self.hump2.evaluate_integrand(x)] *)
Definition evaluate_integrand (self : CamelIntegrand) (x : Tensor) : result Tensor :=
  a <- Gaussian.evaluate_integrand (hump1 self) x ;;
  b <- Gaussian.evaluate_integrand (hump2 self) x ;;
  binop Rplus a b.

(** [SymmetricCamelIntegrand.__init__(d, s=0.1, norm=1, device=None)]: the
    parent's constructor with [s1 = s2 = s] and [norm1 = norm2 = norm]. *)
Definition SymmetricCamelIntegrand_init (d : Z) (s norm : option Tensor)
  (device : option Device) : result CamelIntegrand :=
  let s := default s (Tensor0 (1 / 10)) in
  let norm := default norm (Tensor0 1) in
  CamelIntegrand_init d (Some s) (Some norm) (Some s) (Some norm) device.

End GaussianCamel.

(** ** src/models/layers/trainable.py *)
Module Trainable.






End Trainable.

(** The mirror image of a point of the unit hypercube: [1 - x],
    coordinate by coordinate. *)
Definition reflect (x : list R) : list R := map (fun a => 1 - a) x.

(** The euclidean distance of a point [x] of dimension [d] to a centre,
    given as a scalar or a vector. *)
Definition distance (d : nat) (c : Tensor) (x : list R) : R :=
  sqrt (Rsum (map (fun j => (nth j x 0 - param_at c j) ^ 2) (seq 0 d))).

(** * Properties *)

(** ** numpy arithmetic *)

Lemma np_div_fin (a b : R) : b <> 0 -> np_div a b = fin (a / b).
Proof.
  intro Hb. unfold np_div. destruct (Req_dec_T b 0) as [E | _]; [contradiction | reflexivity].
Qed.

Lemma np_div_zero_zero : np_div 0 0 = nan.
Proof.
  unfold np_div. destruct (Req_dec_T 0 0) as [_ | N]; [reflexivity | now elim N].
Qed.

Lemma np_sqrt_fin (r : R) : 0 <= r -> np_sqrt (fin r) = fin (sqrt r).
Proof.
  intro Hr. simpl. destruct (Rlt_dec r 0) as [L | _]; [lra | reflexivity].
Qed.

Lemma Rsum_nonneg (l : list R) : Forall (fun a => 0 <= a) l -> 0 <= Rsum l.
Proof.
  induction 1 as [| a l Ha _ IH]; simpl; lra.
Qed.

Lemma Rsum_cons (a : R) (l : list R) : Rsum (a :: l) = a + Rsum l.
Proof. reflexivity. Qed.


Section PoolingProperties.

Context {C : Collaborators}.

Lemma n_points_sum_INR (data : History) :
  INR (n_points_sum data) = Rsum (map (fun r => INR (n_points r)) data).
Proof.
  unfold n_points_sum. induction data as [| r data IH]; simpl.
  - reflexivity.
  - rewrite plus_INR. now rewrite IH.
Qed.

Lemma squares_nonneg (data : History) :
  0 <= Rsum (map (fun r => (error r * INR (n_points r)) ^ 2) data).
Proof.
  apply Rsum_nonneg. apply Forall_forall. intros a Ha.
  apply in_map_iff in Ha as [r [<- _]]. apply pow2_ge_0.
Qed.

(** With no sample at all, both weighted sums vanish. *)
Lemma no_points_no_weight (data : History) :
  n_points_sum data = 0%nat ->
  Rsum (map (fun r => integral r * INR (n_points r)) data) = 0 /\
  Rsum (map (fun r => (error r * INR (n_points r)) ^ 2) data) = 0.
Proof.
  unfold n_points_sum. induction data as [| r data IH]; intro H.
  - split; reflexivity.
  - simpl in H. apply Nat.eq_add_0 in H as [Hr Hd].
    rewrite !map_cons, !Rsum_cons. destruct (IH Hd) as [-> ->].
    rewrite Hr. simpl. split; ring.
Qed.

(** The error as the code computes it, [sqrt(S / N^2)], is the error as
    the specification writes it, [sqrt(S) / N]. *)
Lemma error_code_is_spec (data : History) :
  np_sqrt (np_div (Rsum (map (fun r => (error r * INR (n_points r)) ^ 2) data))
                  (INR (n_points_sum data ^ 2)))
  = pooled_error data.
Proof.
  unfold pooled_error. rewrite <- n_points_sum_INR, pow_INR.
  pose proof (squares_nonneg data) as HS.
  destruct (Nat.eq_dec (n_points_sum data) 0) as [Z0 | NZ].
  - destruct (no_points_no_weight data Z0) as [_ ->]. rewrite Z0. simpl.
    rewrite Rmult_0_l, sqrt_0, np_div_zero_zero. reflexivity.
  - assert (HN : 0 < INR (n_points_sum data)) by (apply lt_0_INR; lia).
    rewrite !np_div_fin by (try apply pow_nonzero; lra).
    rewrite np_sqrt_fin.
    + f_equal. rewrite sqrt_div_alt by (apply pow_lt; exact HN).
      rewrite sqrt_pow2 by lra. reflexivity.
    + apply Rmult_le_pos; [exact HS |].
      apply Rlt_le, Rinv_0_lt_compat, pow_lt, HN.
Qed.

Lemma finalize_integration_eq (self : Integrator) (flag : option bool) :
  finalize_integration self flag =
  let data := selected_records (default flag (use_survey self))
                (integration_history self) in
  Ok (pooled_value data, pooled_error data, integration_history self).
Proof.
  unfold finalize_integration. cbv zeta.
  fold (refine_rows (integration_history self)).
  set (data := if default flag (use_survey self) then integration_history self
               else refine_rows (integration_history self)).
  change (selected_records (default flag (use_survey self)) (integration_history self))
    with data.
  rewrite error_code_is_spec. unfold pooled_value.
  now rewrite n_points_sum_INR.
Qed.



End PoolingProperties.

Section RecordingProperties.

Context {C : Collaborators}.

Lemma pooled_empty : pooled_value [] = nan /\ pooled_error [] = nan.
Proof.
  unfold pooled_value, pooled_error. simpl.
  rewrite sqrt_0, np_div_zero_zero. split; reflexivity.
Qed.

Lemma finalize_integration_nan (self : Integrator) (flag : option bool) :
  selected_records (default flag (use_survey self)) (integration_history self) = [] ->
  finalize_integration self flag = Ok (nan, nan, integration_history self).
Proof.
  intro Hsel. rewrite finalize_integration_eq. cbv zeta. rewrite Hsel.
  destruct pooled_empty as [-> ->]. reflexivity.
Qed.

(** C5, as the code has it: finalize_integration has no guard on an empty
    selection.  When no record is selected it returns normally the triple
    (nan, nan, history), the two 0/0 quotients of the pooling formulas, and
    on no input does it raise EmptyHistoryError. *)
Theorem finalize_integration_empty_selection (self : Integrator) (flag : option bool) :
  selected_records (default flag (use_survey self)) (integration_history self) = [] ->
  finalize_integration self flag = Ok (nan, nan, integration_history self) /\
  (forall (self' : Integrator) (flag' : option bool),
     ~ raises (finalize_integration self' flag') EmptyHistoryError).
Proof.
  intro Hsel. split.
  - now apply finalize_integration_nan.
  - intros self' flag' H. unfold raises in H.
    rewrite finalize_integration_eq in H. discriminate H.
Qed.

Lemma float_div_pos (v : R) (n : nat) :
  (0 < n)%nat -> float_div v n = Ok (v / INR n).
Proof.
  intro Hn. unfold float_div. destruct n; [lia | reflexivity].
Qed.

(** C4: for a batch (x, px, fx) with n = x.shape[0] > 0 and a variance
    that is not negative, process_survey_step and process_refine_step each
    return with the history extended by exactly one record, which holds the
    given integral, error = sqrt(variance / n) (a non-negative number),
    n_points = n and the phase "survey" or "refine"; the survey record also
    holds the training record, the refine record holds none. *)
Theorem process_steps_record (self : Integrator) (x px fx : Tensor) (n : nat)
  (integral_i variance : R) (record : TrainingRecord) :
  shape0 x = Ok n -> (0 < n)%nat -> 0 <= variance ->
  process_survey_step self (x, px, fx) integral_i variance record
  = Ok (set_integration_history self
          (integration_history self ++
             [{| integral := integral_i; error := sqrt (variance / INR n);
                 n_points := n; phase := "survey";
                 training_record := Some record |}])) /\
  process_refine_step self (x, px, fx) integral_i variance
  = Ok (set_integration_history self
          (integration_history self ++
             [{| integral := integral_i; error := sqrt (variance / INR n);
                 n_points := n; phase := "refine";
                 training_record := None |}])) /\
  0 <= sqrt (variance / INR n).
Proof.
  intros Hx Hn Hv. unfold process_survey_step, process_refine_step.
  rewrite Hx. cbn [bind]. rewrite (float_div_pos variance n Hn). cbn [bind].
  unfold pow_half. repeat split. apply sqrt_pos.
Qed.

End RecordingProperties.

(** C5, as stated, fails on a freshly built integrator: its history is
    empty, and finalize_integration returns (nan, nan, []) where the claim
    has it raise EmptyHistoryError.  It fails in the same way when
    use_survey is false and the history holds survey records only. *)
Lemma finalize_integration_empty_returns :
  integration_history Example.integrator0 = [] /\
  finalize_integration Example.integrator0 (Some true) = Ok (nan, nan, []) /\
  ~ raises (finalize_integration Example.integrator0 (Some true)) EmptyHistoryError /\
  (let h := [Example.row 1 (1 / 10) 100 "survey"] in
   finalize_integration (set_integration_history Example.integrator0 h) (Some false)
   = Ok (nan, nan, h)).
Proof.
  split; [reflexivity |]. split; [| split].
  - apply (finalize_integration_nan Example.integrator0 (Some true)).
    reflexivity.
  - intro H. unfold raises in H.
    rewrite (finalize_integration_nan Example.integrator0 (Some true) eq_refl) in H.
    discriminate H.
  - intro h.
    apply (finalize_integration_nan
             (set_integration_history Example.integrator0 h) (Some false)).
    reflexivity.
Qed.

Lemma finalize_integration_empty_selection_witness :
  selected_records (default (Some false) (use_survey Example.integrator0))
    (integration_history Example.integrator0) = [] /\
  finalize_integration Example.integrator0 (Some false) = Ok (nan, nan, []).
Proof.
  split; [reflexivity |].
  apply (finalize_integration_empty_selection Example.integrator0 (Some false)).
  reflexivity.
Defined.

Lemma process_steps_record_witness :
  shape0 (Tensor2 2 [[1 / 2; 1 / 4]; [1 / 4; 1 / 2]]) = Ok 2%nat /\
  process_refine_step Example.integrator0
    (Tensor2 2 [[1 / 2; 1 / 4]; [1 / 4; 1 / 2]], Tensor1 [1; 1], Tensor1 [1; 1]) 1 8
  = Ok (set_integration_history Example.integrator0
          [{| integral := 1; error := sqrt (8 / INR 2); n_points := 2;
              phase := "refine"; training_record := None |}]).
Proof.
  split; [reflexivity |].
  apply (process_steps_record Example.integrator0
           (Tensor2 2 [[1 / 2; 1 / 4]; [1 / 4; 1 / 2]]) (Tensor1 [1; 1])
           (Tensor1 [1; 1]) 2 1 8 tt); [reflexivity | lia | lra].
Defined.

(** ** The history ledger *)
Section LedgerProperties.

Context {C : Collaborators} {E : EstimatorAPI}.

Lemma process_survey_step_appends (self self' : Integrator) (sample : Batch)
  (i v : R) (record : TrainingRecord) :
  process_survey_step self sample i v record = Ok self' ->
  exists r, self' = set_integration_history self (integration_history self ++ [r]) /\
            phase r = "survey"%string /\ integral r = i /\
            training_record r = Some record.
Proof.
  destruct sample as [[x px] fx]. unfold process_survey_step.
  destruct (shape0 x) as [n |]; cbn [bind]; [| discriminate].
  destruct (float_div v n) as [q |]; cbn [bind]; [| discriminate].
  intro H. injection H as <-. eexists. split; [reflexivity |]. repeat split.
Qed.

Lemma process_refine_step_appends (self self' : Integrator) (sample : Batch) (i v : R) :
  process_refine_step self sample i v = Ok self' ->
  exists r, self' = set_integration_history self (integration_history self ++ [r]) /\
            phase r = "refine"%string /\ integral r = i /\
            training_record r = None.
Proof.
  destruct sample as [[x px] fx]. unfold process_refine_step.
  destruct (shape0 x) as [n |]; cbn [bind]; [| discriminate].
  destruct (float_div v n) as [q |]; cbn [bind]; [| discriminate].
  intro H. injection H as <-. eexists. split; [reflexivity |]. repeat split.
Qed.

Lemma sample_survey_frame (self : Integrator) (n : option nat) (f' : option integrand) :
  integration_history (snd (sample_survey self n f')) = integration_history self /\
  model_trainer (snd (sample_survey self n f')) = model_trainer self /\
  same_counts (snd (sample_survey self n f')) self.
Proof.
  unfold sample_survey.
  destruct (generate_target_batch_from_posterior _ _ _) as [out post].
  repeat split.
Qed.

Lemma sample_refine_frame (self : Integrator) (n : option nat) (f' : option integrand) :
  integration_history (snd (sample_refine self n f')) = integration_history self /\
  posterior (snd (sample_refine self n f')) = posterior self /\
  same_counts (snd (sample_refine self n f')) self.
Proof.
  unfold sample_refine. destruct (sample_forward _ _) as [out t]. repeat split.
Qed.

Lemma fit_step_frame (sample : Batch) (self : Integrator) :
  integration_history (snd (fit_step sample self)) = integration_history self /\
  posterior (snd (fit_step sample self)) = posterior self /\
  same_counts (snd (fit_step sample self)) self.
Proof.
  unfold fit_step. destruct (fit _ _) as [out t]. repeat split.
Qed.

Lemma survey_iteration_appends (np : option nat) (self self' : Integrator) :
  survey_iteration np self = (Ok tt, self') ->
  exists r, integration_history self' = integration_history self ++ [r] /\
            phase r = "survey"%string /\ same_counts self' self.
Proof.
  unfold survey_iteration, bindM, lift, update.
  pose proof (sample_survey_frame self np None) as Hs.
  destruct (sample_survey self np None) as [[sample | e] s1]; [| discriminate].
  cbn [snd] in Hs. destruct Hs as [Hh [_ [Hc1 Hc2]]].
  destruct (estimate sample) as [iv | e]; [| discriminate].
  pose proof (fit_step_frame sample s1) as Hf.
  destruct (fit_step sample s1) as [[record | e] s2]; [| discriminate].
  cbn [snd] in Hf. destruct Hf as [Hh2 [_ [Hc3 Hc4]]].
  destruct (process_survey_step s2 sample (fst iv) (snd iv) record) as [s3 | e] eqn:Hp;
    [| discriminate].
  intro H. injection H as <-.
  apply process_survey_step_appends in Hp as [r [-> [Hr _]]].
  exists r. cbn. rewrite Hh2, Hh. repeat split; try congruence.
  - cbn. congruence.
  - cbn. congruence.
Qed.

Lemma refine_iteration_appends (np : option nat) (self self' : Integrator) :
  refine_iteration np self = (Ok tt, self') ->
  exists r, integration_history self' = integration_history self ++ [r] /\
            phase r = "refine"%string /\ same_counts self' self.
Proof.
  unfold refine_iteration, bindM, lift, update.
  pose proof (sample_refine_frame self np None) as Hs.
  destruct (sample_refine self np None) as [[sample | e] s1]; [| discriminate].
  cbn [snd] in Hs. destruct Hs as [Hh [_ [Hc1 Hc2]]].
  destruct (estimate sample) as [iv | e]; [| discriminate].
  destruct (process_refine_step s1 sample (fst iv) (snd iv)) as [s3 | e] eqn:Hp;
    [| discriminate].
  intro H. injection H as <-.
  apply process_refine_step_appends in Hp as [r [-> [Hr _]]].
  exists r. cbn. rewrite Hh. repeat split; try congruence.
  - cbn. congruence.
  - cbn. congruence.
Qed.

(** A loop of [k] iterations that each append one record of phase [ph]
    appends [k] records of that phase. *)
Lemma repeatM_appends (ph : string) (body : M unit) :
  (forall self self', body self = (Ok tt, self') ->
     exists r, integration_history self' = integration_history self ++ [r] /\
               phase r = ph /\ same_counts self' self) ->
  forall (k : nat) (self self' : Integrator),
    repeatM k body self = (Ok tt, self') ->
    exists rs, integration_history self' = integration_history self ++ rs /\
               map phase rs = repeat ph k /\ same_counts self' self.
Proof.
  intros Hbody. induction k as [| k IH]; intros self self' H.
  - injection H as <-. exists []. rewrite app_nil_r. repeat split.
  - cbn [repeatM] in H. unfold bindM in H.
    destruct (body self) as [[[] | e] s1] eqn:Hb; [| discriminate].
    apply Hbody in Hb as [r [Hh [Hr [Hc1 Hc2]]]].
    apply IH in H as [rs [Hh' [Hrs [Hc3 Hc4]]]].
    exists (r :: rs). rewrite Hh', Hh, <- app_assoc. cbn [app map repeat].
    rewrite Hr, Hrs. repeat split; congruence.
Qed.

Lemma integrate_forgets_history (a b np1 np2 : option nat) (flag : option bool)
  (self : Integrator) (h0 : History) :
  integrate a b np1 np2 flag (set_integration_history self h0)
  = integrate a b np1 np2 flag self.
Proof. reflexivity. Qed.

Lemma integrate_history (a b np1 np2 : option nat) (flag : option bool)
  (self self' : Integrator) (v e : npfloat) (h : History) :
  integrate a b np1 np2 flag self = (Ok (v, e, h), self') ->
  h = integration_history self' /\
  map phase h = repeat "survey"%string (default a (n_iter_survey self)) ++
                repeat "refine"%string (default b (n_iter_refine self)).
Proof.
  unfold integrate, bindM, modify, finalize_refine, initialize_refine,
    finalize_survey, initialize_survey.
  destruct (repeatM (default a (n_iter_survey (initialize self)))
              (survey_iteration np1) (initialize self)) as [[[] | e1] s1] eqn:H1;
    [| discriminate].
  destruct (repeatM (default b (n_iter_refine s1)) (refine_iteration np2) s1)
    as [[[] | e2] s2] eqn:H2; [| discriminate].
  rewrite finalize_integration_eq. cbv zeta. intro H. injection H as _ _ <- <-.
  split; [reflexivity |].
  apply (repeatM_appends "survey" _ (survey_iteration_appends np1)) in H1
    as [rs1 [Hh1 [Hp1 [Hc1 Hc2]]]].
  apply (repeatM_appends "refine" _ (refine_iteration_appends np2)) in H2
    as [rs2 [Hh2 [Hp2 _]]].
  rewrite Hh2, Hh1. cbn [initialize set_integration_history integration_history
                          empty_history app].
  rewrite map_app, Hp1, Hp2. cbn in Hc2. rewrite Hc2. reflexivity.
Qed.

End LedgerProperties.

Section LedgerTheorem.

Context {C : Collaborators} {E : EstimatorAPI}.

(** C6: initialize() resets the history to the empty ledger and leaves the
    trainer and the posterior as they are; integrate() starts with it, so a
    run does not depend on what the instance recorded before, and the
    history a run returns holds the records of that run only, the survey
    records followed by the refine records in iteration order; a second run
    on the same instance behaves as on an instance with an empty history.
    Within a run the history is append-only: a process step that returns
    has added one record at the end and left every earlier record, the
    trainer and the posterior unchanged. *)
Theorem history_ledger :
  (forall self : Integrator,
     integration_history (initialize self) = [] /\
     model_trainer (initialize self) = model_trainer self /\
     posterior (initialize self) = posterior self) /\
  (forall (a b np1 np2 : option nat) (flag : option bool) (self : Integrator)
          (h0 : History),
     integrate a b np1 np2 flag (set_integration_history self h0)
     = integrate a b np1 np2 flag self) /\
  (forall (a b np1 np2 : option nat) (flag : option bool) (self self' : Integrator)
          (v e : npfloat) (h : History),
     integrate a b np1 np2 flag self = (Ok (v, e, h), self') ->
     h = integration_history self' /\
     map phase h = repeat "survey"%string (default a (n_iter_survey self)) ++
                   repeat "refine"%string (default b (n_iter_refine self))) /\
  (forall (a b np1 np2 a' b' np1' np2' : option nat) (flag flag' : option bool)
          (self : Integrator),
     let after := snd (integrate a b np1 np2 flag self) in
     integrate a' b' np1' np2' flag' after
     = integrate a' b' np1' np2' flag' (set_integration_history after [])) /\
  (forall (self self' : Integrator) (sample : Batch) (i v : R)
          (record : TrainingRecord),
     process_survey_step self sample i v record = Ok self' ->
     (exists r, integration_history self' = integration_history self ++ [r] /\
                phase r = "survey"%string) /\
     (forall k, (k < length (integration_history self))%nat ->
        nth_error (integration_history self') k
        = nth_error (integration_history self) k) /\
     model_trainer self' = model_trainer self /\ posterior self' = posterior self) /\
  (forall (self self' : Integrator) (sample : Batch) (i v : R),
     process_refine_step self sample i v = Ok self' ->
     (exists r, integration_history self' = integration_history self ++ [r] /\
                phase r = "refine"%string) /\
     (forall k, (k < length (integration_history self))%nat ->
        nth_error (integration_history self') k
        = nth_error (integration_history self) k) /\
     model_trainer self' = model_trainer self /\ posterior self' = posterior self).
Proof.
  split; [| split; [| split; [| split; [| split]]]].
  - intro self. repeat split.
  - intros. apply integrate_forgets_history.
  - intros a b np1 np2 flag self self' v e h H.
    exact (integrate_history a b np1 np2 flag self self' v e h H).
  - intros. reflexivity.
  - intros self self' sample i v record H.
    apply process_survey_step_appends in H as [r [-> [Hr _]]].
    cbn [set_integration_history integration_history model_trainer posterior].
    split; [exists r; split; [reflexivity | exact Hr] |].
    split; [| split; reflexivity].
    intros k Hk. now apply nth_error_app1.
  - intros self self' sample i v H.
    apply process_refine_step_appends in H as [r [-> [Hr _]]].
    cbn [set_integration_history integration_history model_trainer posterior].
    split; [exists r; split; [reflexivity | exact Hr] |].
    split; [| split; reflexivity].
    intros k Hk. now apply nth_error_app1.
Qed.

End LedgerTheorem.

Lemma history_ledger_witness :
  exists v e h self',
    integrate (E := Example.estimator) (Some 1%nat) (Some 2%nat) (Some 1%nat) (Some 1%nat) None
      (set_integration_history Example.integrator0
         [Example.row 1 (1 / 10) 100 "refine"])
    = (Ok (v, e, h), self') /\
    map phase h = ["survey"; "refine"; "refine"]%string /\
    h = integration_history self'.
Proof.
  do 4 eexists.
  assert (H : integrate (E := Example.estimator) (Some 1%nat) (Some 2%nat) (Some 1%nat) (Some 1%nat) None
                (set_integration_history Example.integrator0
                   [Example.row 1 (1 / 10) 100 "refine"])
              = (Ok (_, _, _), _)) by reflexivity.
  split; [exact H |].
  destruct (proj1 (proj2 (proj2 (history_ledger (E := Example.estimator)))) _ _ _ _ _ _ _ _ _ _ H) as [Hh Hp].
  split; [exact Hp | exact Hh].
Defined.

(** ** Sampling *)

Lemma removelast_firstn_S {A : Type} (d : nat) (r : list A) :
  length r = S d -> removelast r = firstn d r.
Proof.
  intro H. rewrite removelast_firstn_len, H. reflexivity.
Qed.

Lemma last_nth_S {A : Type} (dflt : A) (r : list A) :
  forall d, length r = S d -> last r dflt = nth d r dflt.
Proof.
  induction r as [| a r IH]; intros d H; [discriminate |].
  destruct r as [| b r].
  - injection H as <-. reflexivity.
  - destruct d as [| d]; [discriminate |].
    injection H as H. change (last (b :: r) dflt = nth d (b :: r) dflt).
    apply IH. cbn [length]. now f_equal.
Qed.

Lemma drop_last_column_rows (d : nat) (rows : list (list R)) :
  Forall (fun r => length r = S d) rows ->
  drop_last_column (Tensor2 (S d) rows) = Ok (Tensor2 d (map (firstn d) rows)).
Proof.
  intro H. cbn [drop_last_column]. replace (S d - 1)%nat with d by lia.
  do 2 f_equal.
  apply map_ext_in. intros r Hr. apply removelast_firstn_S.
  rewrite Forall_forall in H. now apply H.
Qed.

Lemma last_column_rows (d : nat) (rows : list (list R)) :
  Forall (fun r => length r = S d) rows ->
  last_column (Tensor2 (S d) rows) = Ok (Tensor1 (map (fun r => nth d r 0) rows)).
Proof.
  intro H. cbn [last_column Nat.eqb]. do 2 f_equal.
  apply map_ext_in. intros r Hr. apply last_nth_S.
  rewrite Forall_forall in H. now apply H.
Qed.

Lemma slicing_exceptions (xj : Tensor) (e : exn) :
  drop_last_column xj = Raise e \/ last_column xj = Raise e -> e = IndexError.
Proof.
  destruct xj as [v | v | c rows]; cbn [drop_last_column last_column].
  - intros [H | H]; now injection H.
  - intros [H | H]; now injection H.
  - destruct (c =? 0)%nat; intros [H | H]; try discriminate H. now injection H.
Qed.

Section SamplingProperties.

Context {C : Collaborators}.

Lemma sample_refine_eq (self : Integrator) (n : option nat) (f' : option integrand)
  (d : nat) (rows : list (list R)) (t' : Trainer) :
  sample_forward (model_trainer self) (default n (n_points_refine self))
  = (Ok (Tensor2 (S d) rows), t') ->
  Forall (fun r => length r = S d) rows ->
  sample_refine self n f'
  = (fx <- default f' (f self) (Tensor2 d (map (firstn d) rows)) ;;
     Ok (Tensor2 d (map (firstn d) rows),
         Tensor1 (map (fun r => exp (- nth d r 0)) rows), fx),
     set_model_trainer self t').
Proof.
  intros Hsf Hwf. unfold sample_refine. rewrite Hsf. cbn [bind].
  rewrite (drop_last_column_rows d rows Hwf). cbn [bind].
  rewrite (last_column_rows d rows Hwf). cbn [bind exp_neg].
  rewrite map_map. reflexivity.
Qed.

(** The process steps read the batch for [x.shape[0]] only. *)
Lemma process_steps_ignore_px_fx (self : Integrator) (x px fx px' fx' : Tensor)
  (i v : R) (record : TrainingRecord) :
  process_survey_step self (x, px, fx) i v record
  = process_survey_step self (x, px', fx') i v record /\
  process_refine_step self (x, px, fx) i v
  = process_refine_step self (x, px', fx') i v.
Proof. split; reflexivity. Qed.

(** The only exceptions of a process step are [IndexError], on a batch of
    rank 0, and [ZeroDivisionError], on an empty batch. *)
Lemma process_steps_exceptions (self : Integrator) (sample : Batch) (i v : R)
  (record : TrainingRecord) (e : exn) :
  raises (process_survey_step self sample i v record) e \/
  raises (process_refine_step self sample i v) e ->
  e = IndexError \/ e = ZeroDivisionError.
Proof.
  destruct sample as [[x px] fx]. unfold raises, process_survey_step, process_refine_step.
  unfold shape0. destruct (shape x) as [| n sh]; cbn [bind].
  - intros [H | H]; injection H as <-; now left.
  - unfold float_div. destruct (n =? 0)%nat; cbn [bind].
    + intros [H | H]; injection H as <-; now right.
    + intros [H | H]; discriminate H.
Qed.


(** C2, as the code has it: no method of the integrator inspects the
    densities of a batch.  sample_survey hands back the outcome of
    generate_target_batch_from_posterior as it is; sample_refine returns
    px = exp(-(last column)) without a test, and raises
    DegenerateDensityError only if sample_forward or f does; the process
    steps record the iteration whatever the densities are, and raise
    nothing but IndexError or ZeroDivisionError. *)
Theorem densities_not_inspected :
  (forall (self : Integrator) (n : option nat) (f' : option integrand),
     fst (sample_survey self n f')
     = fst (generate_target_batch_from_posterior
              (default n (n_points_survey self)) (default f' (f self))
              (posterior self))) /\
  (forall (self : Integrator) (n : option nat) (f' : option integrand),
     ~ raises (fst (sample_forward (model_trainer self)
                      (default n (n_points_refine self)))) DegenerateDensityError ->
     (forall x, ~ raises (default f' (f self) x) DegenerateDensityError) ->
     ~ raises (fst (sample_refine self n f')) DegenerateDensityError) /\
  (forall (self : Integrator) (x px fx px' : Tensor) (i v : R)
          (record : TrainingRecord),
     process_survey_step self (x, px, fx) i v record
     = process_survey_step self (x, px', fx) i v record /\
     process_refine_step self (x, px, fx) i v
     = process_refine_step self (x, px', fx) i v) /\
  (forall (self : Integrator) (sample : Batch) (i v : R) (record : TrainingRecord),
     ~ raises (process_survey_step self sample i v record) DegenerateDensityError /\
     ~ raises (process_refine_step self sample i v) DegenerateDensityError).
Proof.
  split; [| split; [| split]].
  - intros self n f'. unfold sample_survey.
    destruct (generate_target_batch_from_posterior _ _ _) as [out post]. reflexivity.
  - intros self n f' Hsf Hf. unfold sample_refine, raises in *.
    destruct (sample_forward _ _) as [[xj | e] t]; cbn [fst bind] in *.
    + destruct (drop_last_column xj) as [x | e] eqn:Hx; cbn [bind].
      * destruct (last_column xj) as [l | e] eqn:Hl; cbn [bind].
        -- specialize (Hf x). destruct (default f' (f self) x) as [fx | e];
             cbn [bind]; [discriminate |].
           intro H. apply Hf. injection H as ->. reflexivity.
        -- rewrite (slicing_exceptions xj e (or_intror Hl)). discriminate.
      * rewrite (slicing_exceptions xj e (or_introl Hx)). discriminate.
    + intro H. apply Hsf. injection H as ->. reflexivity.
  - intros. apply process_steps_ignore_px_fx.
  - intros self sample i v record. split; intro H.
    + destruct (process_steps_exceptions self sample i v record _ (or_introl H));
        discriminate.
    + destruct (process_steps_exceptions self sample i v record _ (or_intror H));
        discriminate.
Qed.

End SamplingProperties.


(** Counterexample to C2: a posterior that reports the density 0 is given
    to the integrator; sample_survey returns the batch with that density,
    and both process steps record it.  Nothing raises
    DegenerateDensityError. *)
Lemma zero_density_batch_accepted :
  Exists (fun p => p <= 0) (entries (snd (fst Example.zero_density_batch))) /\
  fst (sample_survey Example.integrator0 (Some 1%nat) None)
  = Ok Example.zero_density_batch /\
  (exists self', process_survey_step Example.integrator0 Example.zero_density_batch
                   1 0 tt = Ok self') /\
  (exists self', process_refine_step Example.integrator0 Example.zero_density_batch
                   1 0 = Ok self') /\
  ~ (raises (fst (sample_survey Example.integrator0 (Some 1%nat) None))
       DegenerateDensityError \/
     raises (process_survey_step Example.integrator0 Example.zero_density_batch 1 0 tt)
       DegenerateDensityError \/
     raises (process_refine_step Example.integrator0 Example.zero_density_batch 1 0)
       DegenerateDensityError).
Proof.
  split; [| split; [| split; [| split]]].
  - constructor. cbn. lra.
  - reflexivity.
  - eexists. reflexivity.
  - eexists. reflexivity.
  - intros [H | [H | H]]; discriminate H.
Qed.

Lemma densities_not_inspected_witness :
  ~ raises (fst (sample_forward (model_trainer Example.integrator0)
                   (default (Some 1%nat) (n_points_refine Example.integrator0))))
      DegenerateDensityError /\
  (forall x, ~ raises (default None (f Example.integrator0) x) DegenerateDensityError) /\
  ~ raises (fst (sample_refine Example.integrator0 (Some 1%nat) None))
      DegenerateDensityError.
Proof.
  assert (H1 : ~ raises (fst (sample_forward (model_trainer Example.integrator0)
                   (default (Some 1%nat) (n_points_refine Example.integrator0))))
      DegenerateDensityError) by (intro H; discriminate H).
  assert (H2 : forall x, ~ raises (default None (f Example.integrator0) x)
                           DegenerateDensityError)
    by (intros [v | v | c rows] H; discriminate H).
  split; [exact H1 |]. split; [exact H2 |].
  exact (proj1 (proj2 densities_not_inspected) Example.integrator0 (Some 1%nat) None
           H1 H2).
Defined.

(** ** Shapes *)
Section ShapeProperties.

Context {C : Collaborators}.

(** C7, as the code has it: the one shape test is the pair of assert
    statements of Integrand.__call__.  A batch x that is not of rank two, or
    whose second dimension is not d, fails it with an AssertionError, at
    once and before the integrand is evaluated; a batch of shape (n, d) is
    handed to evaluate_integrand.  The integrator compares no batch
    dimensions: its process steps give the same result whatever px and fx
    are and never raise ShapeMismatchError, and sample_refine passes an
    exception of f on after its single call of sample_forward. *)
Theorem shape_tests :
  (forall (T : Type) (I : Integrands.Integrand T) (self : T) (x : Tensor),
     (length (shape x) =? 2)%nat
     && (Z.of_nat (nth 1 (shape x) 0%nat) =? Integrands.Integrand_d self)%Z = false ->
     Integrands.call self x = Raise AssertionError) /\
  (forall (T : Type) (I : Integrands.Integrand T) (self : T) (x : Tensor),
     (length (shape x) =? 2)%nat
     && (Z.of_nat (nth 1 (shape x) 0%nat) =? Integrands.Integrand_d self)%Z = true ->
     Integrands.call self x = Integrands.evaluate_integrand self x) /\
  (forall (self : Integrator) (x px fx px' fx' : Tensor) (i v : R)
          (record : TrainingRecord),
     process_survey_step self (x, px, fx) i v record
     = process_survey_step self (x, px', fx') i v record /\
     process_refine_step self (x, px, fx) i v
     = process_refine_step self (x, px', fx') i v) /\
  (forall (self : Integrator) (sample : Batch) (i v : R) (record : TrainingRecord),
     ~ raises (process_survey_step self sample i v record) ShapeMismatchError /\
     ~ raises (process_refine_step self sample i v) ShapeMismatchError) /\
  (forall (self : Integrator) (n : option nat) (f' : option integrand) (d : nat)
          (rows : list (list R)) (t' : Trainer) (e : exn),
     sample_forward (model_trainer self) (default n (n_points_refine self))
     = (Ok (Tensor2 (S d) rows), t') ->
     Forall (fun r => length r = S d) rows ->
     default f' (f self) (Tensor2 d (map (firstn d) rows)) = Raise e ->
     sample_refine self n f' = (Raise e, set_model_trainer self t')).
Proof.
  split; [| split; [| split; [| split]]].
  - intros T I self x H. unfold Integrands.call.
    destruct (length (shape x) =? 2)%nat; cbn [assert bind]; [| reflexivity].
    cbn [andb] in H. rewrite H. reflexivity.
  - intros T I self x H. unfold Integrands.call.
    apply andb_true_iff in H as [-> ->]. reflexivity.
  - intros. apply process_steps_ignore_px_fx.
  - intros self sample i v record. split; intro H.
    + destruct (process_steps_exceptions self sample i v record _ (or_introl H));
        discriminate.
    + destruct (process_steps_exceptions self sample i v record _ (or_intror H));
        discriminate.
  - intros self n f' d rows t' e Hsf Hwf Hf.
    rewrite (sample_refine_eq self n f' d rows t' Hsf Hwf), Hf. reflexivity.
Qed.

End ShapeProperties.

(** Counterexample to C7: a batch of two points with three densities and a
    single integrand value is recorded by process_refine_step and by
    process_survey_step as an iteration of two points; and a batch of
    three-dimensional points given to a two-dimensional integrand raises
    AssertionError.  Neither raises ShapeMismatchError. *)
Lemma ragged_batch_accepted :
  shape (fst (fst Example.ragged_batch)) = [2; 2]%nat /\
  shape (snd (fst Example.ragged_batch)) = [3]%nat /\
  shape (snd Example.ragged_batch) = [1]%nat /\
  (exists self', process_refine_step Example.integrator0 Example.ragged_batch 1 0
                 = Ok self') /\
  (exists self', process_survey_step Example.integrator0 Example.ragged_batch 1 0 tt
                 = Ok self') /\
  Integrands.call Example.half_square (Tensor2 3 [[1 / 2; 1 / 4; 1 / 8]])
  = Raise AssertionError /\
  ~ (raises (process_refine_step Example.integrator0 Example.ragged_batch 1 0)
       ShapeMismatchError \/
     raises (process_survey_step Example.integrator0 Example.ragged_batch 1 0 tt)
       ShapeMismatchError \/
     raises (Integrands.call Example.half_square (Tensor2 3 [[1 / 2; 1 / 4; 1 / 8]]))
       ShapeMismatchError).
Proof.
  split; [reflexivity |]. split; [reflexivity |]. split; [reflexivity |].
  split; [eexists; reflexivity |]. split; [eexists; reflexivity |].
  split; [reflexivity |].
  intros [H | [H | H]]; discriminate H.
Qed.

Lemma shape_tests_witness :
  Integrands.call Example.half_square (Tensor1 [1 / 2; 1 / 4]) = Raise AssertionError /\
  Integrands.call Example.half_square (Tensor2 2 [[1 / 4; 1 / 2]])
  = Integrands.evaluate_integrand Example.half_square (Tensor2 2 [[1 / 4; 1 / 2]]) /\
  sample_refine Example.integrator0 (Some 1%nat) (Some (fun _ => Raise AssertionError))
  = (Raise AssertionError, set_model_trainer Example.integrator0 1%nat).
Proof.
  split; [| split].
  - apply (proj1 (shape_tests (C := Example.collaborators))
             Integrands.HyperrectangleVolumeIntegrand _ Example.half_square
             (Tensor1 [1 / 2; 1 / 4])).
    reflexivity.
  - apply (proj1 (proj2 (shape_tests (C := Example.collaborators)))
             Integrands.HyperrectangleVolumeIntegrand _ Example.half_square
             (Tensor2 2 [[1 / 4; 1 / 2]])).
    reflexivity.
  - apply (proj2 (proj2 (proj2 (proj2 shape_tests))) Example.integrator0 (Some 1%nat)
             (Some (fun _ => Raise AssertionError)) 2%nat [[1 / 2; 1 / 4; 0]] 1%nat
             AssertionError).
    + reflexivity.
    + repeat constructor.
    + reflexivity.
Defined.

(** ** The flat survey integrator *)
Section FlatProperties.

Context {C : Collaborators}.



End FlatProperties.




(** ** Benchmark integrands *)

Lemma assert_true (c : bool) : c = true -> assert c = Ok tt.
Proof. now intros ->. Qed.

Lemma assert_false (c : bool) : c = false -> assert c = Raise AssertionError.
Proof. now intros ->. Qed.

Lemma Rleb_true (a b : R) : Rleb a b = true <-> a <= b.
Proof. unfold Rleb. destruct (Rle_dec a b); split; intro; try discriminate; tauto. Qed.

Lemma hr_init_ok (d : Z) (sd : option Z) (fr : option R) :
  (0 <= default sd 0 < d)%Z -> 0 <= default fr (5 / 10) <= 1 ->
  Integrands.HyperrectangleVolumeIntegrand_init d sd fr
  = Ok {| Integrands.hr_d := d; Integrands.split_dim := default sd 0%Z;
          Integrands.frac := default fr (5 / 10) |}.
Proof.
  intros [H1 H2] [H3 H4]. unfold Integrands.HyperrectangleVolumeIntegrand_init.
  fold (default sd 0%Z). fold (default fr (5 / 10)).
  rewrite assert_true; cbn [bind].
  - rewrite assert_true; [reflexivity |].
    apply andb_true_iff. split; now apply Rleb_true.
  - apply andb_true_iff. split; [now apply Z.leb_le | now apply Z.ltb_lt].
Qed.

Lemma hr_init_inv (d : Z) (sd : option Z) (fr : option R)
  (h : Integrands.HyperrectangleVolumeIntegrand) :
  Integrands.HyperrectangleVolumeIntegrand_init d sd fr = Ok h ->
  (0 <= default sd 0 < d)%Z /\ 0 <= default fr (5 / 10) <= 1 /\
  h = {| Integrands.hr_d := d; Integrands.split_dim := default sd 0%Z;
         Integrands.frac := default fr (5 / 10) |}.
Proof.
  unfold Integrands.HyperrectangleVolumeIntegrand_init.
  fold (default sd 0%Z). fold (default fr (5 / 10)).
  destruct ((0 <=? default sd 0) && (default sd 0 <? d))%Z eqn:H1; cbn [assert bind];
    [| discriminate].
  destruct (Rleb 0 (default fr (5 / 10)) && Rleb (default fr (5 / 10)) 1) eqn:H2;
    cbn [assert bind]; [| discriminate].
  intro H. injection H as <-.
  apply andb_true_iff in H1 as [H1 H1']. apply andb_true_iff in H2 as [H2 H2'].
  apply Z.leb_le in H1. apply Z.ltb_lt in H1'.
  apply Rleb_true in H2. apply Rleb_true in H2'. repeat split; assumption.
Qed.

Lemma hr_call (d k : Z) (fr : R) (rows : list (list R)) :
  (0 <= k < d)%Z ->
  Integrands.call {| Integrands.hr_d := d; Integrands.split_dim := k;
                     Integrands.frac := fr |}
    (Tensor2 (Z.to_nat d) rows)
  = Ok (Tensor1 (map (below (Z.to_nat k) fr) rows)).
Proof.
  intros [Hk Hd]. unfold Integrands.call.
  cbn [shape length Nat.eqb assert bind nth Integrands.Integrand_d
       Integrands.VolumeIntegrand_Integrand Integrands.VolumeIntegrand_d
       Integrands.HyperrectangleVolumeIntegrand_Volume Integrands.hr_d].
  rewrite Z2Nat.id by lia. rewrite Z.eqb_refl. cbn [assert bind].
  cbn [Integrands.evaluate_integrand Integrands.VolumeIntegrand_Integrand
       Integrands.inequality Integrands.HyperrectangleVolumeIntegrand_Volume].
  unfold Integrands.hr_inequality.
  cbn [Integrands.split_dim Integrands.frac select_column].
  rewrite Z2Nat.id by lia.
  replace ((- d <=? k) && (k <? d))%Z with true
    by (symmetry; apply andb_true_iff; split; [apply Z.leb_le | apply Z.ltb_lt]; lia).
  replace (k <? 0)%Z with false by (symmetry; apply Z.ltb_ge; lia).
  cbn [bind entries]. unfold Integrands.to_dtype. rewrite !map_map.
  do 2 f_equal. apply map_ext. intro r. unfold below, Rltb.
  destruct (Rlt_dec (nth (Z.to_nat k) r 0) fr); reflexivity.
Qed.

(** C10: HyperrectangleVolumeIntegrand decides membership by the strict
    inequality.  On a batch of shape (batch, d) the integrand built by the
    constructor is, at every point, 1 exactly when x[split_dim] < frac and
    0 otherwise, so a point with x[split_dim] = frac gets 0; integral()
    returns frac; the constructor accepts exactly 0 <= split_dim < d with
    0 <= frac <= 1, the boundary values frac = 0 and frac = 1 included. *)
Theorem hyperrectangle_strict_inequality :
  (forall (d : Z) (sd : option Z) (fr : option R),
     (0 <= default sd 0 < d)%Z -> 0 <= default fr (5 / 10) <= 1 ->
     Integrands.HyperrectangleVolumeIntegrand_init d sd fr
     = Ok {| Integrands.hr_d := d; Integrands.split_dim := default sd 0%Z;
             Integrands.frac := default fr (5 / 10) |}) /\
  (forall (d : Z) (sd : option Z) (fr : option R),
     returns (Integrands.HyperrectangleVolumeIntegrand_init d sd fr) ->
     (0 <= default sd 0 < d)%Z /\ 0 <= default fr (5 / 10) <= 1) /\
  (forall (d k : Z),
     (0 <= k < d)%Z ->
     returns (Integrands.HyperrectangleVolumeIntegrand_init d (Some k) (Some 0)) /\
     returns (Integrands.HyperrectangleVolumeIntegrand_init d (Some k) (Some 1))) /\
  (forall (d : Z) (sd : option Z) (fr : option R)
          (h : Integrands.HyperrectangleVolumeIntegrand) (rows : list (list R)),
     Integrands.HyperrectangleVolumeIntegrand_init d sd fr = Ok h ->
     Forall (fun r => length r = Z.to_nat d) rows ->
     Integrands.integral h = default fr (5 / 10) /\
     Integrands.integral h = Integrands.frac h /\
     Integrands.call h (Tensor2 (Z.to_nat d) rows)
     = Ok (Tensor1 (map (below (Z.to_nat (Integrands.split_dim h)) (Integrands.frac h))
                      rows))) /\
  (forall (k : nat) (frac : R) (x : list R),
     (below k frac x = 1 <-> nth k x 0 < frac) /\
     (below k frac x = 0 <-> frac <= nth k x 0) /\
     (nth k x 0 = frac -> below k frac x = 0)).
Proof.
  split; [| split; [| split; [| split]]].
  - apply hr_init_ok.
  - intros d sd fr [h H]. apply hr_init_inv in H as [H1 [H2 _]]. now split.
  - intros d k Hk. split; eexists; apply hr_init_ok; cbn [default]; try exact Hk; lra.
  - intros d sd fr h rows H Hwf. apply hr_init_inv in H as [H1 [H2 ->]].
    split; [reflexivity |]. split; [reflexivity |].
    cbn [Integrands.split_dim Integrands.frac]. now apply hr_call.
  - intros k frac x. unfold below.
    destruct (Rlt_dec (nth k x 0) frac) as [L | N]; repeat split; intros; try lra.
Qed.

Lemma hyperrectangle_strict_inequality_witness :
  Integrands.HyperrectangleVolumeIntegrand_init 2 None None = Ok Example.half_square /\
  Integrands.call Example.half_square (Tensor2 2 [[1 / 4; 3 / 4]; [1 / 2; 0]; [3 / 4; 0]])
  = Ok (Tensor1 [below 0 (1 / 2) [1 / 4; 3 / 4]; below 0 (1 / 2) [1 / 2; 0];
                 below 0 (1 / 2) [3 / 4; 0]]) /\
  below 0 (1 / 2) [1 / 4; 3 / 4] = 1 /\
  below 0 (1 / 2) [1 / 2; 0] = 0.
Proof.
  assert (Hinit : Integrands.HyperrectangleVolumeIntegrand_init 2 None None
                  = Ok Example.half_square).
  { unfold Example.half_square. replace (1 / 2) with (5 / 10) by lra.
    apply (proj1 hyperrectangle_strict_inequality 2%Z None None); cbn [default].
    - lia.
    - lra. }
  split; [exact Hinit |]. split; [| split].
  - apply (proj2 (proj2 (proj1 (proj2 (proj2 (proj2 hyperrectangle_strict_inequality)))
                          2%Z None None Example.half_square
                          [[1 / 4; 3 / 4]; [1 / 2; 0]; [3 / 4; 0]] Hinit
                          ltac:(repeat constructor)))).
  - apply (proj1 (proj2 (proj2 (proj2 (proj2 hyperrectangle_strict_inequality)))
                    0%nat (1 / 2) [1 / 4; 3 / 4])).
    cbn [nth]. lra.
  - apply (proj2 (proj2 (proj2 (proj2 (proj2 (proj2 hyperrectangle_strict_inequality)))
                           0%nat (1 / 2) [1 / 2; 0]))).
    reflexivity.
Defined.

(** *** Broadcasting a parameter over a batch *)

Lemma bcast_dim_one_r (n : nat) : bcast_dim n 1 = Ok n.
Proof.
  unfold bcast_dim. destruct (n =? 1)%nat; reflexivity.
Qed.

Lemma bcast_dim_one_l (n : nat) : bcast_dim 1 n = Ok n.
Proof.
  unfold bcast_dim. destruct (1 =? n)%nat eqn:E; [| reflexivity].
  apply Nat.eqb_eq in E. now subst n.
Qed.

Lemma bcast_dim_same (n : nat) : bcast_dim n n = Ok n.
Proof. unfold bcast_dim. now rewrite Nat.eqb_refl. Qed.

Lemma expand_id {A : Type} (dflt : A) (n : nat) (l : list A) :
  length l = n -> expand dflt n l = l.
Proof. intros <-. unfold expand. now rewrite Nat.eqb_refl. Qed.

Lemma expand_singleton {A : Type} (dflt : A) (n : nat) (a : A) :
  expand dflt n [a] = repeat a n.
Proof.
  unfold expand. cbn [length hd]. destruct (1 =? n)%nat eqn:E; [| reflexivity].
  apply Nat.eqb_eq in E. now subst n.
Qed.

Lemma expand_rows (c : nat) (rows : list (list R)) :
  Forall (fun r => length r = c) rows ->
  expand [] (length rows) (map (expand 0 c) rows) = rows.
Proof.
  intro H. rewrite expand_id by apply length_map.
  rewrite <- (map_id rows) at 2. apply map_ext_in. intros r Hr.
  apply expand_id. rewrite Forall_forall in H. now apply H.
Qed.

Lemma zipWith_repeat_r {A B D : Type} (g : A -> B -> D) (l : list A) (b : B) :
  zipWith g l (repeat b (length l)) = map (fun a => g a b) l.
Proof.
  unfold zipWith. induction l as [| a l IH]; [reflexivity |].
  cbn [length repeat combine map fst snd]. now rewrite IH.
Qed.

Lemma zipWith_repeat_l {A B D : Type} (g : A -> B -> D) (a : A) (l : list B) :
  zipWith g (repeat a (length l)) l = map (g a) l.
Proof.
  unfold zipWith. induction l as [| b l IH]; [reflexivity |].
  cbn [length repeat combine map fst snd]. now rewrite IH.
Qed.

(** A row of length [c] listed coordinate by coordinate. *)
Lemma map_by_index (g : R -> R) (c : nat) (r : list R) :
  length r = c -> map g r = map (fun j => g (nth j r 0)) (seq 0 c).
Proof.
  intros <-. induction r as [| a r IH]; [reflexivity |].
  cbn [length seq map nth]. f_equal. rewrite <- seq_shift, map_map. exact IH.
Qed.

Lemma zipWith_by_index (op : R -> R -> R) (c : nat) (r v : list R) :
  length r = c -> length v = c ->
  zipWith op r v = map (fun j => op (nth j r 0) (nth j v 0)) (seq 0 c).
Proof.
  intros <-. revert v. unfold zipWith.
  induction r as [| a r IH]; intros [| b v] Hv; try discriminate; [reflexivity |].
  injection Hv as Hv. cbn [length seq map nth combine fst snd]. f_equal.
  rewrite <- seq_shift, map_map. now apply IH.
Qed.

Lemma nth_by_index (g : nat -> R) (c j : nat) :
  (j < c)%nat -> nth j (map g (seq 0 c)) 0 = g j.
Proof.
  intro H. rewrite (nth_indep _ 0 (g 0%nat)) by (now rewrite length_map, length_seq).
  rewrite map_nth, seq_nth by exact H. reflexivity.
Qed.

Lemma binop_param (op : R -> R -> R) (c : nat) (rows : list (list R)) (p : Tensor) :
  Forall (fun r => length r = c) rows ->
  Integrands.scalar_or_d_vector p (Z.of_nat c) = true ->
  binop op (Tensor2 c rows) p
  = Ok (Tensor2 c (map (fun r => map (fun j => op (nth j r 0) (param_at p j)) (seq 0 c))
                     rows)).
Proof.
  intros Hwf Hp. unfold binop. destruct p as [m | v | c' rows'].
  - cbn [as_rows rank shape length]. rewrite bcast_dim_one_r. cbn [bind].
    rewrite bcast_dim_one_r. cbn [bind Nat.max of_rows param_at].
    rewrite (expand_rows c rows Hwf). cbn [map].
    rewrite !expand_singleton, zipWith_repeat_r.
    do 2 f_equal. apply map_ext_in. intros r Hr.
    rewrite Forall_forall in Hwf. specialize (Hwf r Hr).
    rewrite <- Hwf at 1. rewrite zipWith_repeat_r.
    now apply map_by_index.
  - cbn [Integrands.scalar_or_d_vector shape] in Hp.
    apply Z.eqb_eq in Hp. apply Nat2Z.inj in Hp.
    cbn [as_rows rank shape length]. rewrite bcast_dim_one_r. cbn [bind].
    rewrite Hp, bcast_dim_same. cbn [bind Nat.max of_rows param_at].
    rewrite (expand_rows c rows Hwf). cbn [map].
    rewrite (expand_id 0 c v Hp), expand_singleton, zipWith_repeat_r.
    do 2 f_equal. apply map_ext_in. intros r Hr.
    rewrite Forall_forall in Hwf. specialize (Hwf r Hr).
    now apply zipWith_by_index.
  - discriminate Hp.
Qed.

Lemma binop_scalar_vector (op : R -> R -> R) (a : R) (l : list R) :
  binop op (Tensor0 a) (Tensor1 l) = Ok (Tensor1 (map (op a) l)).
Proof.
  unfold binop. cbn [as_rows rank shape length]. rewrite bcast_dim_same. cbn [bind].
  rewrite bcast_dim_one_l. cbn [bind Nat.max of_rows map].
  rewrite (expand_singleton 0 (length l) a), (expand_id 0 (length l) l eq_refl).
  rewrite !(expand_id [] 1%nat) by reflexivity.
  unfold zipWith at 1. cbn [combine map fst snd hd].
  now rewrite zipWith_repeat_l.
Qed.

(** The chain of tensor operations both classes apply to a batch. *)
Lemma gaussian_chain (c : nat) (rows : list (list R)) (mu s : Tensor) (nv : R) :
  Forall (fun r => length r = c) rows ->
  Integrands.scalar_or_d_vector mu (Z.of_nat c) = true ->
  Integrands.scalar_or_d_vector s (Z.of_nat c) = true ->
  (diff <- binop Rminus (Tensor2 c rows) mu ;;
   quot <- binop Rdiv diff s ;;
   tot <- sum_axis1 (square quot) ;;
   binop Rmult (Tensor0 nv) (tmap exp (tmap Ropp tot)))
  = Ok (Tensor1 (map (gaussian_formula c mu s nv) rows)).
Proof.
  intros Hwf Hmu Hs. rewrite (binop_param Rminus c rows mu Hwf Hmu). cbn [bind].
  rewrite binop_param; [| | exact Hs].
  - cbn [bind square sum_axis1 tmap]. rewrite binop_scalar_vector.
    rewrite !map_map. do 2 f_equal. apply map_ext. intro r.
    unfold gaussian_formula. do 3 f_equal. rewrite map_map. f_equal.
    apply map_ext_in. intros j Hj. apply in_seq in Hj.
    rewrite nth_by_index by lia. ring.
  - apply Forall_forall. intros r Hr. apply in_map_iff in Hr as [r0 [<- _]].
    now rewrite length_map, length_seq.
Qed.

Lemma dg_init_inv (d : Z) (mu s norm : option Tensor) (dev : option Device)
  (g : Integrands.DiagonalGaussianIntegrand) :
  Integrands.DiagonalGaussianIntegrand_init d mu s norm dev = Ok g ->
  g = {| Integrands.dg_d := d;
         Integrands.mu := default mu (Tensor0 (5 / 10));
         Integrands.s := default s (Tensor0 (1 / 10));
         Integrands.norm := default norm (Tensor0 1);
         Integrands.default_device := dev |} /\
  Integrands.scalar_or_d_vector (default mu (Tensor0 (5 / 10))) d = true /\
  Integrands.scalar_or_d_vector (default s (Tensor0 (1 / 10))) d = true /\
  exists nv, default norm (Tensor0 1) = Tensor0 nv.
Proof.
  unfold Integrands.DiagonalGaussianIntegrand_init, Integrands.sanitize_variable.
  fold (default mu (Tensor0 (5 / 10))). fold (default s (Tensor0 (1 / 10))).
  fold (default norm (Tensor0 1)).
  destruct (Integrands.scalar_or_d_vector (default mu (Tensor0 (5 / 10))) d);
    cbn [assert bind]; [| discriminate].
  destruct (Integrands.scalar_or_d_vector (default s (Tensor0 (1 / 10))) d);
    cbn [assert bind]; [| discriminate].
  destruct (default norm (Tensor0 1)) as [nv | v | c rows]; cbn [shape length Nat.eqb assert bind];
    try discriminate.
  intro H. injection H as <-. repeat split. now exists nv.
Qed.

Lemma gaussian_init_inv (d : Z) (mu s norm : option Tensor) (dev : option Device)
  (g : Gaussian.DiagonalGaussianIntegrand) :
  Gaussian.DiagonalGaussianIntegrand_init d mu s norm dev = Ok g ->
  g = {| Gaussian.dg_d := d;
         Gaussian.mu := default mu (Tensor0 (5 / 10));
         Gaussian.s := default s (Tensor0 (1 / 10));
         Gaussian.norm := default norm (Tensor0 1);
         Gaussian.default_device := dev |}.
Proof.
  unfold Gaussian.DiagonalGaussianIntegrand_init, Integrands.sanitize_variable.
  fold (default mu (Tensor0 (5 / 10))). fold (default s (Tensor0 (1 / 10))).
  fold (default norm (Tensor0 1)).
  destruct (Integrands.scalar_or_d_vector (default mu (Tensor0 (5 / 10))) d);
    cbn [assert bind]; [| discriminate].
  destruct (Integrands.scalar_or_d_vector (default s (Tensor0 (1 / 10))) d);
    cbn [assert bind]; [| discriminate].
  destruct (length (shape (default norm (Tensor0 1))) =? 0)%nat; cbn [assert bind];
    [| discriminate].
  intro H. now injection H as <-.
Qed.

Lemma gaussian_inits_agree (d : Z) (mu s norm : option Tensor) (dev : option Device) :
  returns (Integrands.DiagonalGaussianIntegrand_init d mu s norm dev) <->
  returns (Gaussian.DiagonalGaussianIntegrand_init d mu s norm dev).
Proof.
  unfold returns, Integrands.DiagonalGaussianIntegrand_init,
    Gaussian.DiagonalGaussianIntegrand_init.
  destruct (assert _) as [[] | e]; cbn [bind].
  - destruct (assert _) as [[] | e]; cbn [bind].
    + destruct (assert _) as [[] | e]; cbn [bind].
      * split; intros _; eexists; reflexivity.
      * split; intros [g H]; discriminate H.
    + split; intros [g H]; discriminate H.
  - split; intros [g H]; discriminate H.
Qed.

(** C9: the two DiagonalGaussianIntegrand classes, of
    experiments/benchmarks/utils/integrands.py and of
    experiments/benchmarks/utils/integrands/gaussian.py, accept the same
    parameters, and built from equal parameters d, mu, s, norm their
    evaluate_integrand methods have the same outcome on every tensor; on a
    batch x of shape (batch, d) both return, point by point,
    norm * exp(- sum_j ((x_j - mu_j) / s_j)^2). *)
Theorem gaussian_implementations_agree :
  (forall (d : Z) (mu s norm : option Tensor) (dev : option Device),
     returns (Integrands.DiagonalGaussianIntegrand_init d mu s norm dev) <->
     returns (Gaussian.DiagonalGaussianIntegrand_init d mu s norm dev)) /\
  (forall (d : Z) (mu s norm : option Tensor) (dev : option Device)
          (g1 : Integrands.DiagonalGaussianIntegrand)
          (g2 : Gaussian.DiagonalGaussianIntegrand),
     Integrands.DiagonalGaussianIntegrand_init d mu s norm dev = Ok g1 ->
     Gaussian.DiagonalGaussianIntegrand_init d mu s norm dev = Ok g2 ->
     (forall x : Tensor,
        Integrands.evaluate_integrand g1 x = Gaussian.evaluate_integrand g2 x) /\
     (forall rows : list (list R),
        (0 <= d)%Z ->
        Forall (fun r => length r = Z.to_nat d) rows ->
        let formula :=
          gaussian_formula (Z.to_nat d) (default mu (Tensor0 (5 / 10)))
            (default s (Tensor0 (1 / 10))) (param_at (default norm (Tensor0 1)) 0) in
        Integrands.evaluate_integrand g1 (Tensor2 (Z.to_nat d) rows)
        = Ok (Tensor1 (map formula rows)) /\
        Gaussian.evaluate_integrand g2 (Tensor2 (Z.to_nat d) rows)
        = Ok (Tensor1 (map formula rows)))).
Proof.
  split; [apply gaussian_inits_agree |].
  intros d mu s norm dev g1 g2 H1 H2.
  apply dg_init_inv in H1 as [-> [Hmu [Hs [nv Hn]]]].
  apply gaussian_init_inv in H2 as ->.
  split; [reflexivity |].
  intros rows Hd Hwf formula.
  assert (Heval : Integrands.evaluate_integrand
                    {| Integrands.dg_d := d;
                       Integrands.mu := default mu (Tensor0 (5 / 10));
                       Integrands.s := default s (Tensor0 (1 / 10));
                       Integrands.norm := default norm (Tensor0 1);
                       Integrands.default_device := dev |}
                    (Tensor2 (Z.to_nat d) rows)
                  = Ok (Tensor1 (map formula rows))).
  { cbn [Integrands.evaluate_integrand Integrands.DiagonalGaussianIntegrand_Integrand].
    unfold Integrands.dg_evaluate_integrand.
    cbn [Integrands.mu Integrands.s Integrands.norm].
    subst formula. rewrite Hn. cbn [param_at].
    apply gaussian_chain; [exact Hwf | |]; rewrite Z2Nat.id by exact Hd; assumption. }
  split; [exact Heval | exact Heval].
Qed.

Lemma gaussian_implementations_agree_witness :
  exists g1 g2,
    Integrands.DiagonalGaussianIntegrand_init 2 None (Some (Tensor1 [1; 2])) None None
    = Ok g1 /\
    Gaussian.DiagonalGaussianIntegrand_init 2 None (Some (Tensor1 [1; 2])) None None
    = Ok g2 /\
    Integrands.evaluate_integrand g1 (Tensor2 2 [[1 / 2; 1 / 4]])
    = Gaussian.evaluate_integrand g2 (Tensor2 2 [[1 / 2; 1 / 4]]) /\
    Gaussian.evaluate_integrand g2 (Tensor2 2 [[1 / 2; 1 / 4]])
    = Ok (Tensor1 [gaussian_formula 2 (Tensor0 (5 / 10)) (Tensor1 [1; 2]) 1
                     [1 / 2; 1 / 4]]).
Proof.
  do 2 eexists.
  assert (H1 : Integrands.DiagonalGaussianIntegrand_init 2 None (Some (Tensor1 [1; 2]))
                 None None = Ok _) by reflexivity.
  assert (H2 : Gaussian.DiagonalGaussianIntegrand_init 2 None (Some (Tensor1 [1; 2]))
                 None None = Ok _) by reflexivity.
  split; [exact H1 |]. split; [exact H2 |].
  destruct (proj2 gaussian_implementations_agree 2%Z None (Some (Tensor1 [1; 2])) None
              None _ _ H1 H2) as [Hall Hshape].
  split; [apply Hall |].
  apply (proj2 (Hshape [[1 / 2; 1 / 4]] ltac:(lia) ltac:(repeat constructor))).
Defined.


(** * Further properties of the sources *)

(** ** Comparing an estimate with a known integral *)
Section KnownIntegrandProperties.

Context {T : Type} {I : Integrands.Integrand T} {K : Integrands.KnownIntegrand T}.

Lemma Rabs_zero (x : R) : Rabs x = 0 -> x = 0.
Proof.
  intro H. destruct (Req_dec x 0) as [E | N]; [exact E |].
  elim (Rabs_no_R0 x N). exact H.
Qed.

Lemma relative_denominator_zero (a b : R) :
  5 / 10 * (Rabs a + Rabs b) = 0 <-> a = 0 /\ b = 0.
Proof.
  pose proof (Rabs_pos a) as Ha. pose proof (Rabs_pos b) as Hb. split.
  - intro H. assert (Rabs a = 0) by lra. assert (Rabs b = 0) by lra.
    split; apply Rabs_zero; assumption.
  - intros [-> ->]. rewrite Rabs_R0. lra.
Qed.

Lemma compare_relative_exact (self : T) :
  Integrands.integral self <> 0 ->
  KnownIntegrands.compare_relative self (Integrands.integral self) = Ok 0.
Proof.
  intro Hnz. unfold KnownIntegrands.compare_relative, Integrands.compare_absolute.
  destruct (Req_dec_T _ 0) as [E | N].
  - apply relative_denominator_zero in E as [E _]. contradiction.
  - rewrite Rminus_diag, Rabs_R0. f_equal. unfold Rdiv. ring.
Qed.

Lemma compare_relative_zero_zero (self : T) :
  Integrands.integral self = 0 ->
  KnownIntegrands.compare_relative self 0 = Raise ZeroDivisionError.
Proof.
  intro Hz. unfold KnownIntegrands.compare_relative.
  destruct (Req_dec_T _ 0) as [E | N]; [reflexivity |].
  elim N. now apply relative_denominator_zero.
Qed.

(** compare_relative raises ZeroDivisionError exactly when the true
    integral and the estimate are both zero; in every other case it returns
    a number between 0 and 2, which is 0 exactly when the estimate equals
    the integral. *)
Theorem compare_relative_range (self : T) (estimated_integral : R) :
  (Integrands.integral self = 0 /\ estimated_integral = 0 ->
   KnownIntegrands.compare_relative self estimated_integral = Raise ZeroDivisionError) /\
  (~ (Integrands.integral self = 0 /\ estimated_integral = 0) ->
   exists v,
     KnownIntegrands.compare_relative self estimated_integral = Ok v /\
     0 <= v <= 2 /\
     (v = 0 <-> estimated_integral = Integrands.integral self)).
Proof.
  unfold KnownIntegrands.compare_relative, Integrands.compare_absolute.
  set (a := Integrands.integral self). set (b := estimated_integral).
  pose proof (relative_denominator_zero a b) as Hden.
  destruct (Req_dec_T (5 / 10 * (Rabs a + Rabs b)) 0) as [E | N].
  - split; [reflexivity |]. intro H. elim H. now apply Hden.
  - split; [intro H; elim N; now apply Hden |]. intros _.
    eexists. split; [reflexivity |].
    pose proof (Rabs_pos a) as Ha. pose proof (Rabs_pos b) as Hb.
    pose proof (Rabs_pos (a - b)) as Hab.
    assert (Htri : Rabs (a - b) <= Rabs a + Rabs b).
    { unfold Rminus. eapply Rle_trans; [apply Rabs_triang |].
      rewrite Rabs_Ropp. lra. }
    assert (Hpos : 0 < 5 / 10 * (Rabs a + Rabs b)) by lra.
    split; [split |].
    + apply Rmult_le_pos; [exact Hab | apply Rlt_le, Rinv_0_lt_compat, Hpos].
    + apply Rmult_le_reg_r with (r := 5 / 10 * (Rabs a + Rabs b)); [exact Hpos |].
      unfold Rdiv. rewrite Rmult_assoc, Rinv_l by exact N. lra.
    + split.
      * intro H. apply Rmult_integral in H as [H | H].
        -- apply Rabs_zero in H. lra.
        -- pose proof (Rinv_neq_0_compat _ N). contradiction.
      * intro H. replace (a - b) with 0 by lra. rewrite Rabs_R0. lra.
Qed.

(** check raises ValueError for every method other than "relative" and
    "absolute"; with "absolute" it holds exactly when the estimate is
    within the tolerance of the integral; the exact value passes every
    non-negative tolerance, with "relative" provided the integral is not
    zero; an estimate 0 of an integral 0 makes the default method raise
    ZeroDivisionError. *)
Theorem check_outcomes (self : T) (estimated_integral : R) (tolerance : option R) :
  (forall method : string,
     method <> "relative"%string -> method <> "absolute"%string ->
     KnownIntegrands.check self estimated_integral tolerance (Some method)
     = KnownIntegrands.ValueError) /\
  (exists b,
     KnownIntegrands.check self estimated_integral tolerance (Some "absolute"%string)
     = KnownIntegrands.Checked b /\
     (b = true <->
      Rabs (Integrands.integral self - estimated_integral)
      <= default tolerance (1 / 1000))) /\
  (0 <= default tolerance (1 / 1000) ->
   KnownIntegrands.check self (Integrands.integral self) tolerance
     (Some "absolute"%string) = KnownIntegrands.Checked true) /\
  (0 <= default tolerance (1 / 1000) -> Integrands.integral self <> 0 ->
   KnownIntegrands.check self (Integrands.integral self) tolerance None
   = KnownIntegrands.Checked true) /\
  (Integrands.integral self = 0 ->
   KnownIntegrands.check self 0 tolerance None
   = KnownIntegrands.CheckRaised ZeroDivisionError).
Proof.
  split; [| split; [| split; [| split]]].
  - intros method H1 H2. unfold KnownIntegrands.check. cbn [default].
    apply String.eqb_neq in H1. apply String.eqb_neq in H2. now rewrite H1, H2.
  - eexists. split; [reflexivity |]. apply Rleb_true.
  - intro Htol. unfold KnownIntegrands.check. cbn. f_equal. apply Rleb_true.
    unfold Integrands.compare_absolute. rewrite Rminus_diag, Rabs_R0. exact Htol.
  - intros Htol Hnz. unfold KnownIntegrands.check. cbn [default].
    rewrite String.eqb_refl, (compare_relative_exact self Hnz). f_equal.
    apply Rleb_true. exact Htol.
  - intro Hz. unfold KnownIntegrands.check. cbn [default].
    rewrite String.eqb_refl.
    now rewrite (compare_relative_zero_zero self Hz).
Qed.

End KnownIntegrandProperties.

Lemma compare_relative_range_witness :
  ~ (Integrands.integral Example.half_square = 0 /\ (0 : R) = 0) /\
  exists v,
    KnownIntegrands.compare_relative Example.half_square 0 = Ok v /\ 0 <= v <= 2.
Proof.
  assert (Hnz : ~ (Integrands.integral Example.half_square = 0 /\ (0 : R) = 0))
    by (cbn; lra).
  split; [exact Hnz |].
  destruct (proj2 (compare_relative_range Example.half_square 0) Hnz)
    as [v [Hv [Hr _]]].
  exists v. split; [exact Hv | exact Hr].
Defined.

Lemma check_outcomes_witness :
  KnownIntegrands.check Example.half_square (Integrands.integral Example.half_square)
    (Some (1 / 100)) None
  = KnownIntegrands.Checked true /\
  KnownIntegrands.check Example.half_square (1 / 2) None (Some "sigma"%string)
  = KnownIntegrands.ValueError.
Proof.
  split.
  - apply (proj1 (proj2 (proj2 (proj2 (check_outcomes Example.half_square (1 / 2)
                                         (Some (1 / 100))))))).
    + cbn. lra.
    + cbn. lra.
  - apply (proj1 (check_outcomes Example.half_square (1 / 2) None) "sigma"%string);
      discriminate.
Defined.

(** ** The hypersphere *)

Lemma Rltb_true (a b : R) : Rltb a b = true <-> a < b.
Proof. unfold Rltb. destruct (Rlt_dec a b); split; intro; try discriminate; tauto. Qed.

Lemma Rabs_bound (x b : R) : Rabs x <= b -> - b <= x <= b.
Proof. unfold Rabs. destruct (Rcase_abs x); lra. Qed.

Lemma Rsum_term_le (l : list R) (a : R) :
  Forall (fun b => 0 <= b) l -> In a l -> a <= Rsum l.
Proof.
  induction 1 as [| b l Hb Hl IH]; intros Hin; [contradiction |].
  rewrite Rsum_cons. pose proof (Rsum_nonneg l Hl) as Hs.
  destruct Hin as [-> | Hin]; [lra |]. specialize (IH Hin). lra.
Qed.

Lemma coordinate_le_distance (d : nat) (c : Tensor) (x : list R) (j : nat) :
  (j < d)%nat -> Rabs (nth j x 0 - param_at c j) <= distance d c x.
Proof.
  intro Hj. unfold distance.
  rewrite <- sqrt_Rsqr_abs. apply sqrt_le_1_alt.
  apply Rsum_term_le.
  - apply Forall_forall. intros b Hb. apply in_map_iff in Hb as [k [<- _]].
    apply pow2_ge_0.
  - apply in_map_iff. exists j. split; [unfold Rsqr; ring |].
    apply in_seq. lia.
Qed.

Lemma hs_init_inv (d : Z) (r : R) (c : Tensor) (dev : option Device)
  (h : Hypersphere.HypersphereVolumeIntegrand) :
  Hypersphere.HypersphereVolumeIntegrand_init d r c dev = Ok h ->
  h = {| Hypersphere.hs_d := d; Hypersphere.r := r; Hypersphere.c := c |} /\
  0 < r /\ Integrands.scalar_or_d_vector c d = true /\
  Forall (fun a => 0 < a - r /\ a + r < 1) (entries c).
Proof.
  unfold Hypersphere.HypersphereVolumeIntegrand_init, Integrands.sanitize_variable.
  destruct (Rltb 0 r) eqn:Hr; cbn [assert bind]; [| discriminate].
  destruct (Integrands.scalar_or_d_vector c d) eqn:Hc; cbn [assert bind];
    [| discriminate].
  destruct (Hypersphere.all_above _ 0 && Hypersphere.all_below _ 1) eqn:Hfit;
    cbn [assert bind]; [| discriminate].
  intro H. injection H as <-. split; [reflexivity |].
  split; [now apply Rltb_true |]. split; [reflexivity |].
  apply andb_true_iff in Hfit as [Ha Hb].
  unfold Hypersphere.all_above in Ha. unfold Hypersphere.all_below in Hb.
  rewrite forallb_forall in Ha, Hb. apply Forall_forall. intros a Hin.
  destruct c as [v | v | k rows]; [| | discriminate Hc]; cbn [tmap entries] in *.
  - destruct Hin as [<- | []]. split; apply Rltb_true; [apply Ha | apply Hb]; now left.
  - split; apply Rltb_true; [apply Ha | apply Hb];
      apply in_map_iff; exists a; split; trivial.
Qed.

Lemma param_at_entry (c : Tensor) (d : Z) (j : nat) :
  Integrands.scalar_or_d_vector c d = true -> (j < Z.to_nat d)%nat ->
  In (param_at c j) (entries c).
Proof.
  destruct c as [v | v | k rows]; cbn [Integrands.scalar_or_d_vector shape entries param_at];
    intros Hc Hj; [now left | | discriminate].
  apply Z.eqb_eq in Hc. apply nth_In. lia.
Qed.

Lemma hs_inequality_rows (d : nat) (r : R) (c : Tensor) (rows : list (list R)) :
  Forall (fun x => length x = d) rows ->
  Integrands.scalar_or_d_vector c (Z.of_nat d) = true ->
  Hypersphere.hs_inequality
    {| Hypersphere.hs_d := Z.of_nat d; Hypersphere.r := r; Hypersphere.c := c |}
    (Tensor2 d rows)
  = Ok (map (fun x => Rleb (distance d c x) r) rows).
Proof.
  intros Hwf Hc. unfold Hypersphere.hs_inequality.
  cbn [Hypersphere.c Hypersphere.r].
  rewrite (binop_param Rminus d rows c Hwf Hc).
  cbn [bind square sum_axis1 tmap entries]. rewrite !map_map. f_equal.
  apply map_ext. intro x. unfold distance. do 3 f_equal.
  rewrite map_map. apply map_ext. intro j. ring.
Qed.

(** A hypersphere that the constructor accepts lies inside the open unit
    hypercube: on a batch of shape (batch, d) the integrand is 1 exactly at
    the points whose distance to the centre is at most r (the boundary
    included), every such point has all its coordinates strictly between 0
    and 1, and the centre is one of them. *)
Theorem hypersphere_in_unit_cube (d : Z) (r : R) (c : Tensor) (dev : option Device)
  (h : Hypersphere.HypersphereVolumeIntegrand) (rows : list (list R)) :
  Hypersphere.HypersphereVolumeIntegrand_init d r c dev = Ok h ->
  (0 <= d)%Z ->
  Forall (fun x => length x = Z.to_nat d) rows ->
  Integrands.call h (Tensor2 (Z.to_nat d) rows)
  = Ok (Tensor1 (map (fun x => if Rle_dec (distance (Z.to_nat d) c x) r then 1 else 0)
                   rows)) /\
  (forall x, distance (Z.to_nat d) c x <= r ->
     forall j, (j < Z.to_nat d)%nat -> 0 < nth j x 0 < 1) /\
  distance (Z.to_nat d) c (map (param_at c) (seq 0 (Z.to_nat d))) = 0 /\
  0 < r.
Proof.
  intros Hinit Hd Hwf. apply hs_init_inv in Hinit as [-> [Hr [Hc Hfit]]].
  split; [| split; [| split; [| exact Hr]]].
  - unfold Integrands.call.
    cbn [shape length Nat.eqb assert bind nth Integrands.Integrand_d
         Integrands.VolumeIntegrand_Integrand Integrands.VolumeIntegrand_d
         Hypersphere.HypersphereVolumeIntegrand_Volume Hypersphere.hs_d].
    rewrite Z2Nat.id by exact Hd. rewrite Z.eqb_refl. cbn [assert bind].
    cbn [Integrands.evaluate_integrand Integrands.VolumeIntegrand_Integrand
         Integrands.inequality Hypersphere.HypersphereVolumeIntegrand_Volume].
    pose proof (hs_inequality_rows (Z.to_nat d) r c rows Hwf) as Hin.
    rewrite Z2Nat.id in Hin by exact Hd. rewrite (Hin Hc). cbn [bind].
    unfold Integrands.to_dtype. rewrite map_map. do 2 f_equal.
    apply map_ext. intro x. unfold Rleb.
    destruct (Rle_dec (distance (Z.to_nat d) c x) r); reflexivity.
  - intros x Hx j Hj.
    pose proof (coordinate_le_distance (Z.to_nat d) c x j Hj) as Hcoord.
    rewrite Forall_forall in Hfit.
    destruct (Hfit _ (param_at_entry c d j Hc Hj)) as [Hlo Hhi].
    assert (Habs : Rabs (nth j x 0 - param_at c j) <= r) by lra.
    apply Rabs_bound in Habs. lra.
  - unfold distance.
    assert (Hz : forall l, Forall (fun a => a = 0) l -> Rsum l = 0).
    { induction 1 as [| a l Ha _ IH]; [reflexivity |]. rewrite Rsum_cons. lra. }
    rewrite Hz; [apply sqrt_0 |]. apply Forall_forall. intros a Ha.
    apply in_map_iff in Ha as [j [<- Hj]]. apply in_seq in Hj.
    rewrite nth_by_index by lia. ring.
Qed.

Lemma hypersphere_in_unit_cube_witness :
  exists h,
    Hypersphere.HypersphereVolumeIntegrand_init 2 (1 / 4) (Tensor0 (1 / 2)) None = Ok h /\
    (distance 2 (Tensor0 (1 / 2)) [1 / 2; 3 / 4] <= 1 / 4 ->
     0 < nth 1 [1 / 2; 3 / 4] 0 < 1) /\
    Integrands.call h (Tensor2 2 [[1 / 2; 3 / 4]])
    = Ok (Tensor1 [if Rle_dec (distance 2 (Tensor0 (1 / 2)) [1 / 2; 3 / 4]) (1 / 4)
                   then 1 else 0]).
Proof.
  assert (Hinit : Hypersphere.HypersphereVolumeIntegrand_init 2 (1 / 4)
                    (Tensor0 (1 / 2)) None
                  = Ok {| Hypersphere.hs_d := 2; Hypersphere.r := 1 / 4;
                          Hypersphere.c := Tensor0 (1 / 2) |}).
  { unfold Hypersphere.HypersphereVolumeIntegrand_init, Integrands.sanitize_variable.
    rewrite assert_true by (apply Rltb_true; lra). cbn [bind].
    rewrite assert_true by reflexivity. cbn [bind].
    rewrite assert_true; [reflexivity |].
    apply andb_true_iff. split; cbn; rewrite andb_true_r; apply Rltb_true; lra. }
  eexists. split; [exact Hinit |].
  destruct (hypersphere_in_unit_cube 2 (1 / 4) (Tensor0 (1 / 2)) None _
              [[1 / 2; 3 / 4]] Hinit ltac:(lia) ltac:(repeat constructor))
    as [Hcall [Hin _]].
  split; [| exact Hcall].
  intro Hx. apply (Hin [1 / 2; 3 / 4] Hx 1%nat). cbn. lia.
Defined.

(** ** Gaussians and camels *)

Lemma dg_evaluate_rows (c : nat) (rows : list (list R)) (d : Z) (mu s : Tensor) (nv : R)
  (dev : option Device) :
  Forall (fun x => length x = c) rows ->
  Integrands.scalar_or_d_vector mu (Z.of_nat c) = true ->
  Integrands.scalar_or_d_vector s (Z.of_nat c) = true ->
  Integrands.dg_evaluate_integrand
    {| Integrands.dg_d := d; Integrands.mu := mu; Integrands.s := s;
       Integrands.norm := Tensor0 nv; Integrands.default_device := dev |}
    (Tensor2 c rows)
  = Ok (Tensor1 (map (gaussian_formula c mu s nv) rows)).
Proof.
  intros Hwf Hmu Hs. unfold Integrands.dg_evaluate_integrand.
  cbn [Integrands.mu Integrands.s Integrands.norm]. now apply gaussian_chain.
Qed.

Lemma gaussian_evaluate_rows (c : nat) (rows : list (list R)) (d : Z) (mu s : Tensor)
  (nv : R) (dev : option Device) :
  Forall (fun x => length x = c) rows ->
  Integrands.scalar_or_d_vector mu (Z.of_nat c) = true ->
  Integrands.scalar_or_d_vector s (Z.of_nat c) = true ->
  Gaussian.evaluate_integrand
    {| Gaussian.dg_d := d; Gaussian.mu := mu; Gaussian.s := s;
       Gaussian.norm := Tensor0 nv; Gaussian.default_device := dev |}
    (Tensor2 c rows)
  = Ok (Tensor1 (map (gaussian_formula c mu s nv) rows)).
Proof.
  intros Hwf Hmu Hs. unfold Gaussian.evaluate_integrand.
  cbn [Gaussian.mu Gaussian.s Gaussian.norm]. now apply gaussian_chain.
Qed.

Lemma binop_vectors (op : R -> R -> R) (l1 l2 : list R) :
  length l1 = length l2 ->
  binop op (Tensor1 l1) (Tensor1 l2) = Ok (Tensor1 (zipWith op l1 l2)).
Proof.
  intro H. unfold binop. cbn [as_rows rank shape length]. rewrite bcast_dim_same.
  cbn [bind]. rewrite H, bcast_dim_same. cbn [bind Nat.max of_rows map].
  rewrite (expand_id 0 (length l2) l1 H), (expand_id 0 (length l2) l2 eq_refl).
  rewrite !(expand_id [] 1%nat) by reflexivity.
  unfold zipWith at 1. cbn [combine map fst snd hd]. reflexivity.
Qed.

Lemma zipWith_map_same {A : Type} (op : R -> R -> R) (g1 g2 : A -> R) (l : list A) :
  zipWith op (map g1 l) (map g2 l) = map (fun a => op (g1 a) (g2 a)) l.
Proof.
  unfold zipWith. induction l as [| a l IH]; [reflexivity |].
  cbn [map combine fst snd]. now rewrite IH.
Qed.

Lemma gaussian_formula_range (c : nat) (mu s : Tensor) (nv : R) (x : list R) :
  0 <= nv -> 0 <= gaussian_formula c mu s nv x <= nv.
Proof.
  intro Hn. unfold gaussian_formula.
  set (q := Rsum _).
  assert (Hq : 0 <= q).
  { apply Rsum_nonneg, Forall_forall. intros a Ha.
    apply in_map_iff in Ha as [j [<- _]]. apply pow2_ge_0. }
  pose proof (exp_pos (- q)) as Hpos.
  assert (Hle : exp (- q) <= 1).
  { rewrite <- exp_0. destruct (Req_dec q 0) as [-> | Hnz].
    - rewrite Ropp_0. lra.
    - apply Rlt_le, exp_increasing. lra. }
  split; [apply Rmult_le_pos; lra |].
  rewrite <- (Rmult_1_r nv) at 2. apply Rmult_le_compat_l; assumption.
Qed.

Lemma gaussian_formula_at_mean (c : nat) (mu s : Tensor) (nv : R) :
  gaussian_formula c mu s nv (map (param_at mu) (seq 0 c)) = nv.
Proof.
  unfold gaussian_formula.
  assert (Hz : Rsum (map (fun j => ((nth j (map (param_at mu) (seq 0 c)) 0
                                     - param_at mu j) / param_at s j) ^ 2)
                         (seq 0 c)) = 0).
  { assert (H0 : forall l, Forall (fun a => a = 0) l -> Rsum l = 0).
    { induction 1 as [| a l Ha _ IH]; [reflexivity |]. rewrite Rsum_cons. lra. }
    apply H0, Forall_forall. intros a Ha.
    apply in_map_iff in Ha as [j [<- Hj]]. apply in_seq in Hj.
    rewrite nth_by_index by lia. unfold Rdiv. ring. }
  rewrite Hz, Ropp_0, exp_0. ring.
Qed.

(** A diagonal gaussian with a non-negative prefactor takes its values
    between 0 and that prefactor: on a batch of shape (batch, d) the
    integrand returns one value per point, each in [0, norm], and at the
    mean (standard deviations not zero) the value is norm itself. *)
Theorem gaussian_bounded_by_norm (d : Z) (mu s norm : option Tensor)
  (dev : option Device) (g : Integrands.DiagonalGaussianIntegrand)
  (rows : list (list R)) :
  Integrands.DiagonalGaussianIntegrand_init d mu s norm dev = Ok g ->
  (0 <= d)%Z ->
  Forall (fun x => length x = Z.to_nat d) rows ->
  0 <= param_at (Integrands.norm g) 0 ->
  Forall (fun a => a <> 0) (entries (Integrands.s g)) ->
  (exists values,
     Integrands.call g (Tensor2 (Z.to_nat d) rows) = Ok (Tensor1 values) /\
     length values = length rows /\
     Forall (fun v => 0 <= v <= param_at (Integrands.norm g) 0) values) /\
  Integrands.call g
    (Tensor2 (Z.to_nat d) [map (param_at (Integrands.mu g)) (seq 0 (Z.to_nat d))])
  = Ok (Tensor1 [param_at (Integrands.norm g) 0]).
Proof.
  intros Hinit Hd Hwf Hn _.
  apply dg_init_inv in Hinit as [-> [Hmu [Hs [nv Hnv]]]].
  cbn [Integrands.norm Integrands.mu Integrands.s] in *. rewrite Hnv in *.
  cbn [param_at] in *.
  assert (Hcall : forall rows', Forall (fun x => length x = Z.to_nat d) rows' ->
            Integrands.call
              {| Integrands.dg_d := d;
                 Integrands.mu := default mu (Tensor0 (5 / 10));
                 Integrands.s := default s (Tensor0 (1 / 10));
                 Integrands.norm := Tensor0 nv; Integrands.default_device := dev |}
              (Tensor2 (Z.to_nat d) rows')
            = Ok (Tensor1 (map (gaussian_formula (Z.to_nat d)
                                  (default mu (Tensor0 (5 / 10)))
                                  (default s (Tensor0 (1 / 10))) nv) rows'))).
  { intros rows' Hwf'. unfold Integrands.call.
    cbn [shape length Nat.eqb assert bind nth Integrands.Integrand_d
         Integrands.DiagonalGaussianIntegrand_Integrand Integrands.dg_d].
    rewrite Z2Nat.id by exact Hd. rewrite Z.eqb_refl. cbn [assert bind].
    cbn [Integrands.evaluate_integrand Integrands.DiagonalGaussianIntegrand_Integrand].
    apply dg_evaluate_rows; [exact Hwf' | |]; rewrite Z2Nat.id by exact Hd; assumption. }
  split.
  - eexists. split; [apply Hcall, Hwf |]. split; [apply length_map |].
    apply Forall_forall. intros v Hv. apply in_map_iff in Hv as [x [<- _]].
    now apply gaussian_formula_range.
  - rewrite Hcall.
    + cbn [map]. now rewrite gaussian_formula_at_mean.
    + constructor; [| constructor]. now rewrite length_map, length_seq.
Qed.

Lemma gaussian_bounded_by_norm_witness :
  exists g values,
    Integrands.DiagonalGaussianIntegrand_init 2 None None None None = Ok g /\
    Integrands.call g (Tensor2 2 [[1 / 4; 3 / 4]]) = Ok (Tensor1 values) /\
    Forall (fun v => 0 <= v <= 1) values /\
    Integrands.call g (Tensor2 2 [[5 / 10; 5 / 10]]) = Ok (Tensor1 [1]).
Proof.
  eexists.
  assert (Hinit : Integrands.DiagonalGaussianIntegrand_init 2 None None None None
                  = Ok _) by reflexivity.
  destruct (gaussian_bounded_by_norm 2 None None None None _ [[1 / 4; 3 / 4]] Hinit
              ltac:(lia) ltac:(repeat constructor) ltac:(cbn; lra)
              ltac:(repeat constructor; cbn; lra))
    as [[values [Hcall [_ Hrange]]] Hmean].
  exists values. split; [exact Hinit |]. split; [exact Hcall |].
  split; [exact Hrange | exact Hmean].
Defined.

Lemma camel_init_inv (d : Z) (s1 norm1 s2 norm2 : option Tensor) (dev : option Device)
  (cm : IntegrandsCamel.CamelIntegrand) :
  IntegrandsCamel.CamelIntegrand_init d s1 norm1 s2 norm2 dev = Ok cm ->
  exists n1 n2,
    default norm1 (Tensor0 1) = Tensor0 n1 /\ default norm2 (Tensor0 2) = Tensor0 n2 /\
    Integrands.scalar_or_d_vector (default s1 (Tensor0 (1 / 10))) d = true /\
    Integrands.scalar_or_d_vector (default s2 (Tensor0 (2 / 10))) d = true /\
    IntegrandsCamel.cm_d cm = d /\
    IntegrandsCamel.hump1 cm
    = {| Integrands.dg_d := d; Integrands.mu := Tensor0 (25 / 100);
         Integrands.s := default s1 (Tensor0 (1 / 10));
         Integrands.norm := Tensor0 n1; Integrands.default_device := dev |} /\
    IntegrandsCamel.hump2 cm
    = {| Integrands.dg_d := d; Integrands.mu := Tensor0 (75 / 100);
         Integrands.s := default s2 (Tensor0 (2 / 10));
         Integrands.norm := Tensor0 n2; Integrands.default_device := dev |}.
Proof.
  unfold IntegrandsCamel.CamelIntegrand_init.
  destruct (Integrands.DiagonalGaussianIntegrand_init d (Some (Tensor0 (25 / 100))) _ _ dev)
    as [h1 |] eqn:H1; cbn [bind]; [| discriminate].
  destruct (Integrands.DiagonalGaussianIntegrand_init d (Some (Tensor0 (75 / 100))) _ _ dev)
    as [h2 |] eqn:H2; cbn [bind]; [| discriminate].
  intro H. injection H as <-.
  apply dg_init_inv in H1 as [-> [_ [Hs1 [n1 Hn1]]]].
  apply dg_init_inv in H2 as [-> [_ [Hs2 [n2 Hn2]]]].
  cbn [default] in *. exists n1, n2.
  cbn [IntegrandsCamel.cm_d IntegrandsCamel.hump1 IntegrandsCamel.hump2].
  rewrite Hn1, Hn2. repeat split; assumption.
Qed.

Lemma gaussian_camel_init_inv (d : Z) (s1 norm1 s2 norm2 : option Tensor)
  (dev : option Device) (cm : GaussianCamel.CamelIntegrand) :
  GaussianCamel.CamelIntegrand_init d s1 norm1 s2 norm2 dev = Ok cm ->
  exists n1 n2,
    default norm1 (Tensor0 1) = Tensor0 n1 /\ default norm2 (Tensor0 1) = Tensor0 n2 /\
    Integrands.scalar_or_d_vector (default s1 (Tensor0 (1 / 10))) d = true /\
    Integrands.scalar_or_d_vector (default s2 (Tensor0 (1 / 10))) d = true /\
    GaussianCamel.hump1 cm
    = {| Gaussian.dg_d := d; Gaussian.mu := Tensor0 (25 / 100);
         Gaussian.s := default s1 (Tensor0 (1 / 10));
         Gaussian.norm := Tensor0 n1; Gaussian.default_device := dev |} /\
    GaussianCamel.hump2 cm
    = {| Gaussian.dg_d := d; Gaussian.mu := Tensor0 (75 / 100);
         Gaussian.s := default s2 (Tensor0 (1 / 10));
         Gaussian.norm := Tensor0 n2; Gaussian.default_device := dev |}.
Proof.
  unfold GaussianCamel.CamelIntegrand_init.
  destruct (Gaussian.DiagonalGaussianIntegrand_init d (Some (Tensor0 (25 / 100))) _ _ dev)
    as [h1 |] eqn:H1; cbn [bind]; [| discriminate].
  destruct (Gaussian.DiagonalGaussianIntegrand_init d (Some (Tensor0 (75 / 100))) _ _ dev)
    as [h2 |] eqn:H2; cbn [bind]; [| discriminate].
  intro H. injection H as <-.
  assert (Hinv : forall m s0 n0 h,
            Gaussian.DiagonalGaussianIntegrand_init d (Some m) (Some s0) (Some n0) dev
            = Ok h ->
            Integrands.scalar_or_d_vector s0 d = true /\ exists nv, n0 = Tensor0 nv).
  { intros m s0 n0 h Hh.
    destruct (proj2 (gaussian_inits_agree d (Some m) (Some s0) (Some n0) dev))
      as [h' Hh']; [now exists h |].
    apply dg_init_inv in Hh' as [_ [_ [Hs [nv Hn]]]]. split; [exact Hs | now exists nv]. }
  destruct (Hinv _ _ _ _ H1) as [Hs1 [n1 Hn1]].
  destruct (Hinv _ _ _ _ H2) as [Hs2 [n2 Hn2]].
  apply gaussian_init_inv in H1 as ->. apply gaussian_init_inv in H2 as ->.
  cbn [default] in *. exists n1, n2.
  cbn [GaussianCamel.hump1 GaussianCamel.hump2].
  rewrite Hn1, Hn2. repeat split; assumption.
Qed.

Lemma scalar_for_every_dimension (v : R) (d : Z) :
  Integrands.scalar_or_d_vector (Tensor0 v) d = true.
Proof. reflexivity. Qed.

(** The value of a camel at one point: the sum of its two humps. *)
Lemma camel_rows (c : nat) (rows : list (list R)) (s1 s2 : Tensor) (n1 n2 : R)
  (a b : result Tensor) :
  a = Ok (Tensor1 (map (gaussian_formula c (Tensor0 (25 / 100)) s1 n1) rows)) ->
  b = Ok (Tensor1 (map (gaussian_formula c (Tensor0 (75 / 100)) s2 n2) rows)) ->
  (u <- a ;; v <- b ;; binop Rplus u v)
  = Ok (Tensor1 (map (fun x => gaussian_formula c (Tensor0 (25 / 100)) s1 n1 x
                               + gaussian_formula c (Tensor0 (75 / 100)) s2 n2 x)
                   rows)).
Proof.
  intros -> ->. cbn [bind]. rewrite binop_vectors by (now rewrite !length_map).
  now rewrite zipWith_map_same.
Qed.

(** The camel of integrands.py is the sum of two diagonal gaussians centred
    at (0.25, ..., 0.25) and (0.75, ..., 0.75): on a batch of shape
    (batch, d) it returns, point by point,
    norm1 * exp(-sum_j ((x_j - 0.25)/s1_j)^2)
    + norm2 * exp(-sum_j ((x_j - 0.75)/s2_j)^2);
    its constructor fails with the assertion of a hump when s1 or s2 is
    neither a scalar nor a d-vector. *)
Theorem camel_two_humps (d : Z) (s1 norm1 s2 norm2 : option Tensor)
  (dev : option Device) :
  (forall (cm : IntegrandsCamel.CamelIntegrand) (rows : list (list R)),
     IntegrandsCamel.CamelIntegrand_init d s1 norm1 s2 norm2 dev = Ok cm ->
     (0 <= d)%Z ->
     Forall (fun x => length x = Z.to_nat d) rows ->
     Integrands.call cm (Tensor2 (Z.to_nat d) rows)
     = Ok (Tensor1
             (map (fun x =>
                     gaussian_formula (Z.to_nat d) (Tensor0 (25 / 100))
                       (default s1 (Tensor0 (1 / 10)))
                       (param_at (default norm1 (Tensor0 1)) 0) x
                     + gaussian_formula (Z.to_nat d) (Tensor0 (75 / 100))
                         (default s2 (Tensor0 (2 / 10)))
                         (param_at (default norm2 (Tensor0 2)) 0) x)
                  rows))) /\
  (Integrands.scalar_or_d_vector (default s1 (Tensor0 (1 / 10))) d = false \/
   Integrands.scalar_or_d_vector (default s2 (Tensor0 (2 / 10))) d = false ->
   IntegrandsCamel.CamelIntegrand_init d s1 norm1 s2 norm2 dev = Raise AssertionError).
Proof.
  split.
  - intros cm rows Hinit Hd Hwf.
    apply camel_init_inv in Hinit as [n1 [n2 [Hn1 [Hn2 [Hs1 [Hs2 [Hcd [Hh1 Hh2]]]]]]]].
    unfold Integrands.call.
    cbn [shape length Nat.eqb assert bind nth Integrands.Integrand_d
         IntegrandsCamel.CamelIntegrand_Integrand].
    rewrite Hcd, Z2Nat.id by exact Hd. rewrite Z.eqb_refl. cbn [assert bind].
    cbn [Integrands.evaluate_integrand IntegrandsCamel.CamelIntegrand_Integrand].
    unfold IntegrandsCamel.cm_evaluate_integrand. rewrite Hh1, Hh2, Hn1, Hn2.
    cbn [param_at].
    apply camel_rows; apply dg_evaluate_rows; try exact Hwf;
      rewrite ?Z2Nat.id by exact Hd; try assumption; reflexivity.
  - unfold IntegrandsCamel.CamelIntegrand_init,
      Integrands.DiagonalGaussianIntegrand_init, Integrands.sanitize_variable.
    cbn [default]. cbn [Integrands.scalar_or_d_vector shape assert bind].
    intros [H | H]; rewrite H; cbn [assert bind]; [reflexivity |].
    destruct (Integrands.scalar_or_d_vector (default s1 (Tensor0 (1 / 10))) d);
      cbn [assert bind]; [| reflexivity].
    destruct (assert _) as [[] | e] eqn:Ha; cbn [bind]; [reflexivity |].
    unfold assert in Ha. destruct (_ =? _)%nat; [discriminate | now injection Ha as <-].
Qed.

Lemma camel_two_humps_witness :
  exists cm,
    IntegrandsCamel.CamelIntegrand_init 1 None None None None None = Ok cm /\
    Integrands.call cm (Tensor2 1 [[3 / 4]])
    = Ok (Tensor1 [gaussian_formula 1 (Tensor0 (25 / 100)) (Tensor0 (1 / 10)) 1 [3 / 4]
                   + gaussian_formula 1 (Tensor0 (75 / 100)) (Tensor0 (2 / 10)) 2
                       [3 / 4]]) /\
    IntegrandsCamel.CamelIntegrand_init 1 (Some (Tensor1 [1; 2])) None None None None
    = Raise AssertionError.
Proof.
  eexists.
  assert (Hinit : IntegrandsCamel.CamelIntegrand_init 1 None None None None None = Ok _)
    by reflexivity.
  split; [exact Hinit |]. split.
  - apply (proj1 (camel_two_humps 1 None None None None None) _ [[3 / 4]] Hinit
             ltac:(lia) ltac:(repeat constructor)).
  - apply (proj2 (camel_two_humps 1 (Some (Tensor1 [1; 2])) None None None None)).
    left. reflexivity.
Defined.

Lemma gaussian_camel_rows (d : Z) (s1 norm1 s2 norm2 : option Tensor)
  (dev : option Device) (cm : GaussianCamel.CamelIntegrand) (rows : list (list R)) :
  GaussianCamel.CamelIntegrand_init d s1 norm1 s2 norm2 dev = Ok cm ->
  (0 <= d)%Z ->
  Forall (fun x => length x = Z.to_nat d) rows ->
  GaussianCamel.evaluate_integrand cm (Tensor2 (Z.to_nat d) rows)
  = Ok (Tensor1
          (map (fun x =>
                  gaussian_formula (Z.to_nat d) (Tensor0 (25 / 100))
                    (default s1 (Tensor0 (1 / 10)))
                    (param_at (default norm1 (Tensor0 1)) 0) x
                  + gaussian_formula (Z.to_nat d) (Tensor0 (75 / 100))
                      (default s2 (Tensor0 (1 / 10)))
                      (param_at (default norm2 (Tensor0 1)) 0) x)
               rows)).
Proof.
  intros Hinit Hd Hwf.
  apply gaussian_camel_init_inv in Hinit as [n1 [n2 [Hn1 [Hn2 [Hs1 [Hs2 [Hh1 Hh2]]]]]]].
  unfold GaussianCamel.evaluate_integrand. rewrite Hh1, Hh2, Hn1, Hn2.
  cbn [param_at].
  apply camel_rows; apply gaussian_evaluate_rows; try exact Hwf;
    rewrite ?Z2Nat.id by exact Hd; try assumption; reflexivity.
Qed.

Lemma nth_reflect (x : list R) (j : nat) :
  (j < length x)%nat -> nth j (reflect x) 0 = 1 - nth j x 0.
Proof.
  intro H. unfold reflect.
  rewrite (nth_indep _ 0 (1 - 0)) by (now rewrite length_map).
  apply (map_nth (fun a => 1 - a)).
Qed.

(** Mirroring a point exchanges the two humps. *)
Lemma gaussian_formula_reflect (c : nat) (s : Tensor) (nv : R) (x : list R) :
  length x = c ->
  gaussian_formula c (Tensor0 (25 / 100)) s nv (reflect x)
  = gaussian_formula c (Tensor0 (75 / 100)) s nv x /\
  gaussian_formula c (Tensor0 (75 / 100)) s nv (reflect x)
  = gaussian_formula c (Tensor0 (25 / 100)) s nv x.
Proof.
  intro Hx. unfold gaussian_formula. cbn [param_at].
  split; do 4 f_equal; apply map_ext_in; intros j Hj; apply in_seq in Hj;
    rewrite nth_reflect by lia; set (a := nth j x 0).
  - replace (1 - a - 25 / 100) with (- (a - 75 / 100)) by lra. unfold Rdiv. ring.
  - replace (1 - a - 75 / 100) with (- (a - 25 / 100)) by lra. unfold Rdiv. ring.
Qed.

(** The symmetric camel of gaussian.py is invariant under the reflection
    x -> 1 - x of the unit hypercube: on a batch of shape (batch, d) it
    takes the same values at the mirrored points. *)
Theorem symmetric_camel_reflection (d : Z) (s norm : option Tensor) (dev : option Device)
  (cm : GaussianCamel.CamelIntegrand) (rows : list (list R)) :
  GaussianCamel.SymmetricCamelIntegrand_init d s norm dev = Ok cm ->
  (0 <= d)%Z ->
  Forall (fun x => length x = Z.to_nat d) rows ->
  GaussianCamel.evaluate_integrand cm (Tensor2 (Z.to_nat d) (map reflect rows))
  = GaussianCamel.evaluate_integrand cm (Tensor2 (Z.to_nat d) rows) /\
  returns (GaussianCamel.evaluate_integrand cm (Tensor2 (Z.to_nat d) rows)).
Proof.
  intros Hinit Hd Hwf. unfold GaussianCamel.SymmetricCamelIntegrand_init in Hinit.
  assert (Hwf' : Forall (fun x => length x = Z.to_nat d) (map reflect rows)).
  { apply Forall_forall. intros x Hx. apply in_map_iff in Hx as [x0 [<- Hx0]].
    unfold reflect. rewrite length_map. rewrite Forall_forall in Hwf. now apply Hwf. }
  rewrite (gaussian_camel_rows _ _ _ _ _ _ _ _ Hinit Hd Hwf).
  rewrite (gaussian_camel_rows _ _ _ _ _ _ _ _ Hinit Hd Hwf').
  split; [| eexists; reflexivity].
  do 2 f_equal. rewrite map_map. apply map_ext_in. intros x Hx.
  rewrite Forall_forall in Hwf. specialize (Hwf x Hx).
  destruct (gaussian_formula_reflect (Z.to_nat d)
              (default (Some (default s (Tensor0 (1 / 10)))) (Tensor0 (1 / 10)))
              (param_at (default (Some (default norm (Tensor0 1))) (Tensor0 1)) 0)
              x Hwf) as [-> ->].
  apply Rplus_comm.
Qed.

Lemma symmetric_camel_reflection_witness :
  exists cm,
    GaussianCamel.SymmetricCamelIntegrand_init 2 None None None = Ok cm /\
    GaussianCamel.evaluate_integrand cm (Tensor2 2 [reflect [1 / 4; 1 / 8]])
    = GaussianCamel.evaluate_integrand cm (Tensor2 2 [[1 / 4; 1 / 8]]).
Proof.
  eexists.
  assert (Hinit : GaussianCamel.SymmetricCamelIntegrand_init 2 None None None = Ok _)
    by reflexivity.
  split; [exact Hinit |].
  apply (proj1 (symmetric_camel_reflection 2 None None None _ [[1 / 4; 1 / 8]] Hinit
                  ltac:(lia) ltac:(repeat constructor))).
Defined.

Lemma nth_repeat_lt (a : R) (n j : nat) : (j < n)%nat -> nth j (repeat a n) 0 = a.
Proof.
  revert j. induction n as [| n IH]; intros j Hj; [lia |].
  destruct j as [| j]; [reflexivity |]. cbn [repeat nth]. apply IH. lia.
Qed.

Lemma gaussian_formula_at_centre (c : nat) (m : R) (s : Tensor) (nv : R) :
  gaussian_formula c (Tensor0 m) s nv (repeat m c) = nv.
Proof.
  unfold gaussian_formula. cbn [param_at].
  assert (Hz : Rsum (map (fun j => ((nth j (repeat m c) 0 - m) / param_at s j) ^ 2)
                         (seq 0 c)) = 0).
  { assert (H0 : forall l, Forall (fun a => a = 0) l -> Rsum l = 0).
    { induction 1 as [| a l Ha _ IH]; [reflexivity |]. rewrite Rsum_cons. lra. }
    apply H0, Forall_forall. intros a Ha.
    apply in_map_iff in Ha as [j [<- Hj]]. apply in_seq in Hj.
    rewrite nth_repeat_lt by lia. unfold Rdiv. ring. }
  rewrite Hz, Ropp_0, exp_0. ring.
Qed.

(** The two CamelIntegrand classes compute the same function when all four
    parameters s1, norm1, s2, norm2 are given, but their defaults differ
    (s2 = 0.2, norm2 = 2 in integrands.py, s2 = 0.1, norm2 = 1 in
    gaussian.py): built with defaults only, they differ at the point
    (0.75, ..., 0.75) in every dimension, where the first is larger by 1. *)
Theorem camel_classes_defaults (d : Z) (dev : option Device) :
  (forall (s1 norm1 s2 norm2 : Tensor) (c1 : IntegrandsCamel.CamelIntegrand)
          (c2 : GaussianCamel.CamelIntegrand) (rows : list (list R)),
     IntegrandsCamel.CamelIntegrand_init d (Some s1) (Some norm1) (Some s2) (Some norm2)
       dev = Ok c1 ->
     GaussianCamel.CamelIntegrand_init d (Some s1) (Some norm1) (Some s2) (Some norm2)
       dev = Ok c2 ->
     (0 <= d)%Z ->
     Forall (fun x => length x = Z.to_nat d) rows ->
     Integrands.evaluate_integrand c1 (Tensor2 (Z.to_nat d) rows)
     = GaussianCamel.evaluate_integrand c2 (Tensor2 (Z.to_nat d) rows)) /\
  (forall (c1 : IntegrandsCamel.CamelIntegrand) (c2 : GaussianCamel.CamelIntegrand),
     IntegrandsCamel.CamelIntegrand_init d None None None None dev = Ok c1 ->
     GaussianCamel.CamelIntegrand_init d None None None None dev = Ok c2 ->
     (0 <= d)%Z ->
     exists v,
       GaussianCamel.evaluate_integrand c2
         (Tensor2 (Z.to_nat d) [repeat (75 / 100) (Z.to_nat d)]) = Ok (Tensor1 [v]) /\
       Integrands.evaluate_integrand c1
         (Tensor2 (Z.to_nat d) [repeat (75 / 100) (Z.to_nat d)])
       = Ok (Tensor1 [v + 1])).
Proof.
  split.
  - intros s1 norm1 s2 norm2 c1 c2 rows H1 H2 Hd Hwf.
    rewrite (gaussian_camel_rows _ _ _ _ _ _ _ _ H2 Hd Hwf).
    apply camel_init_inv in H1 as [n1 [n2 [Hn1 [Hn2 [Hs1 [Hs2 [_ [Hh1 Hh2]]]]]]]].
    cbn [Integrands.evaluate_integrand IntegrandsCamel.CamelIntegrand_Integrand].
    unfold IntegrandsCamel.cm_evaluate_integrand. rewrite Hh1, Hh2.
    cbn [default] in *. rewrite Hn1, Hn2. cbn [param_at].
    apply camel_rows; apply dg_evaluate_rows; try exact Hwf;
      rewrite ?Z2Nat.id by exact Hd; try assumption; reflexivity.
  - intros c1 c2 H1 H2 Hd.
    assert (Hwf : Forall (fun x => length x = Z.to_nat d)
                    [repeat (75 / 100) (Z.to_nat d)])
      by (constructor; [apply repeat_length | constructor]).
    rewrite (gaussian_camel_rows _ _ _ _ _ _ _ _ H2 Hd Hwf).
    apply camel_init_inv in H1 as [n1 [n2 [Hn1 [Hn2 [Hs1 [Hs2 [_ [Hh1 Hh2]]]]]]]].
    cbn [Integrands.evaluate_integrand IntegrandsCamel.CamelIntegrand_Integrand].
    unfold IntegrandsCamel.cm_evaluate_integrand. rewrite Hh1, Hh2.
    cbn [default] in *. injection Hn1 as <-. injection Hn2 as <-.
    erewrite camel_rows;
      [| apply dg_evaluate_rows; try exact Hwf; reflexivity
       | apply dg_evaluate_rows; try exact Hwf; reflexivity].
    cbn [map param_at]. rewrite !gaussian_formula_at_centre.
    eexists. split; [reflexivity |]. do 3 f_equal. lra.
Qed.

Lemma camel_classes_defaults_witness :
  exists c1 c2 v,
    IntegrandsCamel.CamelIntegrand_init 1 None None None None None = Ok c1 /\
    GaussianCamel.CamelIntegrand_init 1 None None None None None = Ok c2 /\
    GaussianCamel.evaluate_integrand c2 (Tensor2 1 [[75 / 100]]) = Ok (Tensor1 [v]) /\
    Integrands.evaluate_integrand c1 (Tensor2 1 [[75 / 100]]) = Ok (Tensor1 [v + 1]).
Proof.
  do 2 eexists.
  assert (H1 : IntegrandsCamel.CamelIntegrand_init 1 None None None None None = Ok _)
    by reflexivity.
  assert (H2 : GaussianCamel.CamelIntegrand_init 1 None None None None None = Ok _)
    by reflexivity.
  destruct (proj2 (camel_classes_defaults 1 None) _ _ H1 H2 ltac:(lia))
    as [v [Hv2 Hv1]].
  exists v. split; [exact H1 |]. split; [exact H2 |]. split; [exact Hv2 | exact Hv1].
Defined.

(** ** More on pooling *)


Section PoolingBounds.

Context {C : Collaborators}.






End PoolingBounds.



(** ** sample_refine with an integrand of the benchmark classes *)
Section RefineWithIntegrand.

Context {C : Collaborators} {T : Type} {I : Integrands.Integrand T}.


End RefineWithIntegrand.


(** ** The rectangular network *)




